(** * perplexity-mini: the retrieval / synthesis pipeline

    A shallow embedding of
      - [src/lib/search.ts]                (mock retrieval, [searchWeb]),
      - [src/lib/openrouter.ts]            ([OpenRouterClient], [getOpenRouterClient]),
      - [src/app/api/synthesize/route.ts]  (the [POST] handler),
      - [src/components/SearchInterface.tsx] ([handleSearch]),
    followed by the properties of the pipeline.

    Strings are byte strings: a JavaScript string is held as its
    UTF-8 bytes, an unpaired surrogate in it (a JavaScript string may
    hold one) as its three bytes ED, A0..BF, 80..BF.  Values that come
    out of [JSON.parse] are values of [Json.Json].  A call that may
    throw returns an [Exn.Outcome].  The functions of the JavaScript
    runtime the code calls ([toLowerCase], [trim], [includes],
    [encodeURIComponent], [replace(/\s+/g, '-')], number formatting in
    a template literal) are written out in [Module Js].
    [Js.toLowerCase] lowers the letters A..Z and leaves every other
    byte as it is, which is what the runtime does on ASCII text, the
    only text the mock table, the prompts and the scenarios contain;
    the properties of retrieval that speak of any table or of any
    query take the lowering function as a parameter. *)

From Stdlib Require Import String Ascii List Arith Lia Bool DecimalString.
Import ListNotations.
Local Open Scope list_scope.
Local Open Scope string_scope.
Local Open Scope nat_scope.

(* ================================================================== *)
(** ** The JavaScript runtime functions used by the sources *)

Module Js.

Definition nl : string := String (ascii_of_nat 10) EmptyString.
Definition dquote : string := String (ascii_of_nat 34) EmptyString.

(** A string is falsy exactly when it is empty. *)
Definition truthy (s : string) : bool :=
  match s with EmptyString => false | String _ _ => true end.

(** [String(n)] for a non-negative integer, as a template literal
    formats it. *)
Definition numberToString (n : nat) : string :=
  NilEmpty.string_of_uint (Nat.to_uint n).

Definition lowerChar (c : ascii) : ascii :=
  let n := nat_of_ascii c in
  if (65 <=? n) && (n <=? 90) then ascii_of_nat (n + 32) else c.

Fixpoint toLowerCase (s : string) : string :=
  match s with
  | EmptyString => EmptyString
  | String c r => String (lowerChar c) (toLowerCase r)
  end.

(** [s.includes(sub)] *)
Fixpoint includes (s sub : string) : bool :=
  if String.prefix sub s then true
  else match s with
       | EmptyString => false
       | String _ r => includes r sub
       end.

(** The class [\s] (white space and line terminators), on UTF-8 text.
    One byte: TAB, LF, VT, FF, CR, SPACE. *)
Definition isWhitespace (c : ascii) : bool :=
  let n := nat_of_ascii c in
  ((9 <=? n) && (n <=? 13)) || (n =? 32).

(** Two bytes: U+00A0. *)
Definition isWhitespace2 (a b : ascii) : bool :=
  (nat_of_ascii a =? 194) && (nat_of_ascii b =? 160).

(** Three bytes: U+1680, U+2000..U+200A, U+2028, U+2029, U+202F,
    U+205F, U+3000, U+FEFF. *)
Definition isWhitespace3 (a b c : ascii) : bool :=
  let x := nat_of_ascii a in
  let y := nat_of_ascii b in
  let z := nat_of_ascii c in
  ((x =? 225) && (y =? 154) && (z =? 128))
  || ((x =? 226) && (y =? 128)
      && (((128 <=? z) && (z <=? 138)) || (z =? 168) || (z =? 169) || (z =? 175)))
  || ((x =? 226) && (y =? 129) && (z =? 159))
  || ((x =? 227) && (y =? 128) && (z =? 128))
  || ((x =? 239) && (y =? 187) && (z =? 191)).

(** The number of bytes of the [\s] character [s] starts with, 0 when it
    starts with none. *)
Definition whitespaceAt (s : string) : nat :=
  match s with
  | EmptyString => 0
  | String a r1 =>
      if isWhitespace a then 1
      else match r1 with
           | EmptyString => 0
           | String b r2 =>
               if isWhitespace2 a b then 2
               else match r2 with
                    | EmptyString => 0
                    | String c _ => if isWhitespace3 a b c then 3 else 0
                    end
           end
  end.

(** [skip] is the number of bytes still to drop from the [\s]
    character being read. *)
Fixpoint trimStartFrom (skip : nat) (s : string) : string :=
  match skip with
  | S k => match s with
           | EmptyString => EmptyString
           | String _ r => trimStartFrom k r
           end
  | 0 =>
      match whitespaceAt s with
      | 0 => s
      | S k => match s with
               | EmptyString => EmptyString
               | String _ r => trimStartFrom k r
               end
      end
  end.

Definition trimStart (s : string) : string := trimStartFrom 0 s.

(** Does [s], after its first [skip] bytes, consist of [\s] characters
    only? *)
Fixpoint blankFrom (skip : nat) (s : string) : bool :=
  match s with
  | EmptyString => true
  | String _ r =>
      match skip with
      | S k => blankFrom k r
      | 0 => match whitespaceAt s with
             | 0 => false
             | S k => blankFrom k r
             end
      end
  end.

Fixpoint trimEnd (s : string) : string :=
  match s with
  | EmptyString => EmptyString
  | String c r => if blankFrom 0 s then EmptyString else String c (trimEnd r)
  end.

Definition trim (s : string) : string := trimEnd (trimStart s).

(** [s.replace(/\s+/g, '-')]: every maximal run of [\s] characters
    becomes one dash.  [inRun] says that the previous character was one
    of them, [skip] is as above. *)
Fixpoint replaceRuns (inRun : bool) (skip : nat) (s : string) : string :=
  match s with
  | EmptyString => EmptyString
  | String c r =>
      match skip with
      | S k => replaceRuns inRun k r
      | 0 => match whitespaceAt s with
             | 0 => String c (replaceRuns false 0 r)
             | S k => if inRun then replaceRuns true k r
                      else String "-" (replaceRuns true k r)
             end
      end
  end.

Definition replaceWhitespace (s : string) : string := replaceRuns false 0 s.

(** The escapes of [encodeURIComponent]: the unreserved characters
    [A-Z a-z 0-9 - _ . ! ~ * ' ( )] are kept, every other byte of the
    UTF-8 encoding becomes [%XX]. *)
Definition isUnreserved (c : ascii) : bool :=
  let n := nat_of_ascii c in
  ((65 <=? n) && (n <=? 90)) || ((97 <=? n) && (n <=? 122))
  || ((48 <=? n) && (n <=? 57))
  || (n =? 45) || (n =? 95) || (n =? 46) || (n =? 33) || (n =? 126)
  || (n =? 42) || (n =? 39) || (n =? 40) || (n =? 41).

Definition hexDigit (n : nat) : ascii :=
  if n <? 10 then ascii_of_nat (48 + n) else ascii_of_nat (55 + n).

Definition percentEncode (c : ascii) : string :=
  let n := nat_of_ascii c in
  String "%" (String (hexDigit (n / 16)) (String (hexDigit (n mod 16)) EmptyString)).

(** The escapes of a string without unpaired surrogate. *)
Fixpoint percentEncodeAll (s : string) : string :=
  match s with
  | EmptyString => EmptyString
  | String c r =>
      if isUnreserved c then String c (percentEncodeAll r)
      else percentEncode c ++ percentEncodeAll r
  end.

(** Does [s] hold an unpaired surrogate?  Its bytes are ED followed by
    a byte in A0..BF; no other character has these first two bytes. *)
Fixpoint hasLoneSurrogate (s : string) : bool :=
  match s with
  | EmptyString => false
  | String a r =>
      match r with
      | EmptyString => false
      | String b _ =>
          ((nat_of_ascii a =? 237)
           && (160 <=? nat_of_ascii b) && (nat_of_ascii b <=? 191))
          || hasLoneSurrogate r
      end
  end.

(** [encodeURIComponent(s)]; [None] when it throws [URIError], which it
    does exactly on a string that holds an unpaired surrogate. *)
Definition encodeURIComponent (s : string) : option string :=
  if hasLoneSurrogate s then None else Some (percentEncodeAll s).

(** [xs.join(sep)] on an array of strings. *)
Fixpoint join (sep : string) (xs : list string) : string :=
  match xs with
  | [] => EmptyString
  | [x] => x
  | x :: rest => x ++ sep ++ join sep rest
  end.

(** [xs.map((x, index) => f x index)] *)
Fixpoint mapFrom {A B : Type} (f : A -> nat -> B) (start : nat) (xs : list A) : list B :=
  match xs with
  | [] => []
  | x :: rest => f x start :: mapFrom f (S start) rest
  end.

Definition mapi {A B : Type} (f : A -> nat -> B) (xs : list A) : list B :=
  mapFrom f 0 xs.

(** [xs.slice(0, n)] *)
Definition slice0 {A : Type} (n : nat) (xs : list A) : list A := firstn n xs.

End Js.

(* ================================================================== *)
(** ** Thrown values and outcomes *)

Module Exn.

(** What a [catch] clause receives: an [Error] object with its
    message, or a value that is not an instance of [Error]. *)
Inductive Thrown : Type :=
| ErrorObj (message : string)
| OtherValue.

Inductive Outcome (A : Type) : Type :=
| Returned (a : A)
| Threw (e : Thrown).

Arguments Returned {A} a.
Arguments Threw {A} e.

Definition bind {A B : Type} (m : Outcome A) (k : A -> Outcome B) : Outcome B :=
  match m with
  | Returned a => k a
  | Threw e => Threw e
  end.

Definition threw {A : Type} (m : Outcome A) : bool :=
  match m with Returned _ => false | Threw _ => true end.

(** The outcomes that returned, in order. *)
Fixpoint returned {A : Type} (ms : list (Outcome A)) : list A :=
  match ms with
  | [] => []
  | Returned a :: rest => a :: returned rest
  | Threw _ :: rest => returned rest
  end.

(** The errors the engine raises, with the texts of V8, the engine of
    Node.js, on which the route and the library run. *)
Definition uriMalformed : Thrown := ErrorObj "URI malformed".

Definition cannotRead (base key : string) : Thrown :=
  ErrorObj ("Cannot read properties of " ++ base ++ " (reading '" ++ key ++ "')").

Definition cannotConvert : Thrown :=
  ErrorObj "Cannot convert object to primitive value".

Definition notAFunction (what : string) : Thrown :=
  ErrorObj (what ++ " is not a function").

Definition cannotDestructure (key : string) : Thrown :=
  ErrorObj ("Cannot destructure property '" ++ key
            ++ "' of '(intermediate value)' as it is null.").

End Exn.

(* ================================================================== *)
(** ** Values parsed from JSON *)

Module Json.
Import Exn.

Local Set Warnings "-register-all".

(** A value [JSON.parse] can yield.  A number is held as what the code
    can observe of it: its text under [String(n)] and whether it is
    zero. *)
Inductive Json : Type :=
| JNull
| JBool (b : bool)
| JNumber (text : string) (isZero : bool)
| JString (s : string)
| JArray (items : list Json)
| JObject (fields : list (string * Json)).

(** A value read from a property: [None] is [undefined]. *)
Definition Value := option Json.

(** [!!v] *)
Definition truthy (v : Value) : bool :=
  match v with
  | None => false
  | Some JNull => false
  | Some (JBool b) => b
  | Some (JNumber _ isZero) => negb isZero
  | Some (JString s) => Js.truthy s
  | Some (JArray _) => true
  | Some (JObject _) => true
  end.

(** The own property [key] of a parsed object: of two members with the
    same name [JSON.parse] keeps the later one. *)
Fixpoint lookup (key : string) (fields : list (string * Json)) : Value :=
  match fields with
  | [] => None
  | (k, v) :: rest =>
      match lookup key rest with
      | Some later => Some later
      | None => if String.eqb k key then Some v else None
      end
  end.

(** [j.key] for a [j] that is not null and a [key] that names no
    built-in property of arrays, strings, numbers, booleans or objects
    (the sources read [query], [searchResults], [title], [url],
    [snippet], [error], [message], [choices], [content], [usage] and
    [map] in this way). *)
Definition field (j : Json) (key : string) : Value :=
  match j with
  | JObject fields => lookup key fields
  | _ => None
  end.

(** [v.key], which throws on [undefined] and on [null]. *)
Definition get (v : Value) (key : string) : Outcome Value :=
  match v with
  | None => Threw (cannotRead "undefined" key)
  | Some JNull => Threw (cannotRead "null" key)
  | Some j => Returned (field j key)
  end.

(** [String(j)], as a template literal applies it.  An array is its
    elements joined by commas, [null] elements being empty; an object
    is [[object Object]], unless it has a member [toString], which
    hides the method of the prototype and cannot be called. *)
Fixpoint toStringJ (j : Json) : Outcome string :=
  match j with
  | JNull => Returned "null"
  | JBool true => Returned "true"
  | JBool false => Returned "false"
  | JNumber text _ => Returned text
  | JString s => Returned s
  | JArray items =>
      (fix joined (xs : list Json) : Outcome string :=
         match xs with
         | [] => Returned EmptyString
         | x :: rest =>
             match (match x with JNull => Returned EmptyString | _ => toStringJ x end) with
             | Threw e => Threw e
             | Returned a =>
                 match rest with
                 | [] => Returned a
                 | _ => match joined rest with
                        | Threw e => Threw e
                        | Returned b => Returned (a ++ "," ++ b)
                        end
                 end
             end
         end) items
  | JObject fields =>
      match lookup "toString" fields with
      | Some _ => Threw cannotConvert
      | None => Returned "[object Object]"
      end
  end.

Definition toString (v : Value) : Outcome string :=
  match v with
  | None => Returned "undefined"
  | Some j => toStringJ j
  end.

(** [JSON.stringify] followed by [JSON.parse], on an optional string
    member and on a natural number. *)
Definition ofNat (n : nat) : Json := JNumber (Js.numberToString n) (n =? 0).

Definition member (key : string) (v : option Json) : list (string * Json) :=
  match v with
  | Some j => [(key, j)]
  | None => []
  end.

End Json.

(* ================================================================== *)
(** ** src/lib/search.ts *)

Module Search.
Import Exn.

Record SearchResult : Type := mkSearchResult {
  title : string;
  url : string;
  snippet : string;
  domain : string
}.

Record SearchResponse : Type := mkSearchResponse {
  results : list SearchResult;
  totalResults : nat
}.

(** The mock table, in the insertion order [Object.entries] walks. *)
Definition mockSearchResults : list (string * list SearchResult) :=
  [ ("climate change",
     [ {| title := "Climate Change Evidence and Impacts | NASA";
          url := "https://climate.nasa.gov/effects/";
          snippet := "Climate change is causing measurable changes to Earth's systems. Scientists have been tracking these changes for decades, documenting rising temperatures, melting ice sheets, and changing precipitation patterns.";
          domain := "climate.nasa.gov" |};
       {| title := "What is Climate Change? | United Nations";
          url := "https://www.un.org/en/climatechange/what-is-climate-change";
          snippet := "Climate change refers to long-term shifts in temperatures and weather patterns. While climate changes may be natural, since the 1800s, human activities have been the main driver of climate change.";
          domain := "un.org" |};
       {| title := "Climate Change Impacts | EPA";
          url := "https://www.epa.gov/climate-impacts";
          snippet := "Climate change impacts human health and wellbeing through more extreme weather events and wildfires, decreased air quality, and diseases transmitted by insects, food, and water.";
          domain := "epa.gov" |} ]);
    ("artificial intelligence",
     [ {| title := "What is Artificial Intelligence (AI)? | IBM";
          url := "https://www.ibm.com/topics/artificial-intelligence";
          snippet := "Artificial intelligence leverages computers and machines to mimic the problem-solving and decision-making capabilities of the human mind.";
          domain := "ibm.com" |};
       {| title := "Artificial Intelligence | Stanford HAI";
          url := "https://hai.stanford.edu/what-ai";
          snippet := "AI is a broad field of computer science concerned with building smart machines capable of performing tasks that typically require human intelligence.";
          domain := "stanford.edu" |} ]) ].

(** The two generic results built when nothing matched; [encoded] is
    [encodeURIComponent(query)]. *)
Definition genericFirst (query encoded : string) : SearchResult :=
  {| title := "Search Results for " ++ Js.dquote ++ query ++ Js.dquote;
     url := "https://example.com/search?q=" ++ encoded;
     snippet := "This is a simulated search result for the query "
                ++ Js.dquote ++ query ++ Js.dquote
                ++ ". In a real implementation, this would be replaced with actual web search results from APIs like Brave Search or SerpAPI.";
     domain := "example.com" |}.

Definition genericSecond (query : string) : SearchResult :=
  {| title := query ++ " - Research and Analysis";
     url := "https://research.example.com/" ++ Js.replaceWhitespace query;
     snippet := "Comprehensive research and analysis on " ++ query
                ++ ". This mock result demonstrates how search results would be displayed in the application.";
     domain := "research.example.com" |}.

(** The array literal of the generic results.  Its evaluation throws
    [URIError] when [encodeURIComponent] does. *)
Definition genericResults (query : string) : Outcome (list SearchResult) :=
  match Js.encodeURIComponent query with
  | None => Threw uriMalformed
  | Some encoded => Returned [ genericFirst query encoded; genericSecond query ]
  end.

(** The [for ... of Object.entries(table)] loop, [results] being the
    accumulator the loop reassigns. *)
Fixpoint collectMatches (lowercaseQuery : string)
    (table : list (string * list SearchResult))
    (results : list SearchResult) : list SearchResult :=
  match table with
  | [] => results
  | (keyword, mockResults) :: rest =>
      collectMatches lowercaseQuery rest
        (if Js.includes lowercaseQuery keyword
         then (results ++ mockResults)%list
         else results)
  end.

(** [searchWeb] over an arbitrary table and with [lower] for
    [String.prototype.toLowerCase]; the delay of one second is not
    modelled.  The call returns a response or throws. *)
Definition searchWebWith (lower : string -> string)
    (table : list (string * list SearchResult))
    (query : string) : Outcome SearchResponse :=
  let lowercaseQuery := lower query in
  let results := collectMatches lowercaseQuery table [] in
  match (if length results =? 0 then genericResults query
         else Returned results) with
  | Threw e => Threw e
  | Returned results =>
      Returned {| results := Js.slice0 10 results;
                  totalResults := length results |}
  end.

Definition searchWebIn (table : list (string * list SearchResult))
    (query : string) : Outcome SearchResponse :=
  searchWebWith Js.toLowerCase table query.

Definition searchWeb (query : string) : Outcome SearchResponse :=
  searchWebIn mockSearchResults query.

End Search.

(* ================================================================== *)
(** ** src/lib/search.ts with references

    The same function over a store, where arrays and result objects
    have identities: [mockSearchResults] maps a keyword to an array, an
    array holds references to result objects, the spread
    [[...results, ...mockResults]], the array literal of the generic
    results and [slice] each allocate a new array, and the two generic
    results are new objects.  When [encodeURIComponent] throws, the
    array literal and the object literal under construction are
    unreachable from then on; the store does not hold them. *)

Module SearchStore.
Import Exn.
Import Search.

Definition ObjRef := nat.
Definition ArrRef := nat.

Record Heap : Type := mkHeap {
  objects : list SearchResult;
  arrays : list (list ObjRef)
}.

Definition Table := list (string * ArrRef).

Definition newObject (o : SearchResult) (h : Heap) : ObjRef * Heap :=
  (length (objects h),
   {| objects := (objects h ++ [o])%list; arrays := arrays h |}).

Definition newArray (a : list ObjRef) (h : Heap) : ArrRef * Heap :=
  (length (arrays h),
   {| objects := objects h; arrays := (arrays h ++ [a])%list |}).

Definition readArray (h : Heap) (r : ArrRef) : list ObjRef :=
  nth r (arrays h) [].

Definition readObject (h : Heap) (r : ObjRef) : option SearchResult :=
  nth_error (objects h) r.

(** The result objects an array refers to, in order. *)
Fixpoint deref (h : Heap) (refs : list ObjRef) : list SearchResult :=
  match refs with
  | [] => []
  | r :: rest =>
      match readObject h r with
      | Some o => o :: deref h rest
      | None => deref h rest
      end
  end.

Fixpoint collectMatches (lowercaseQuery : string) (table : Table)
    (results : ArrRef) (h : Heap) : ArrRef * Heap :=
  match table with
  | [] => (results, h)
  | (keyword, mockResults) :: rest =>
      if Js.includes lowercaseQuery keyword
      then let '(results', h') :=
             newArray (readArray h results ++ readArray h mockResults)%list h in
           collectMatches lowercaseQuery rest results' h'
      else collectMatches lowercaseQuery rest results h
  end.

Definition genericArray (query : string) (h : Heap) : Outcome ArrRef * Heap :=
  match Js.encodeURIComponent query with
  | None => (Threw uriMalformed, h)
  | Some encoded =>
      let '(o1, h1) := newObject (genericFirst query encoded) h in
      let '(o2, h2) := newObject (genericSecond query) h1 in
      let '(a, h3) := newArray [o1; o2] h2 in
      (Returned a, h3)
  end.

(** What [searchWeb] returns: the reference of the [results] array and
    [totalResults]. *)
Record Response : Type := mkResponse {
  resultsRef : ArrRef;
  totalResults : nat
}.

(** Everything up to the [return]: the array [results] names then,
    and the store. *)
Definition gatherResults (table : Table) (query : string) (h : Heap)
    : Outcome ArrRef * Heap :=
  let lowercaseQuery := Js.toLowerCase query in
  let '(results0, h0) := newArray [] h in
  let '(results1, h1) := collectMatches lowercaseQuery table results0 h0 in
  if length (readArray h1 results1) =? 0
  then genericArray query h1
  else (Returned results1, h1).

Definition searchWeb (table : Table) (query : string) (h : Heap)
    : Outcome Response * Heap :=
  match gatherResults table query h with
  | (Threw e, h2) => (Threw e, h2)
  | (Returned results, h2) =>
      let '(sliced, h3) := newArray (Js.slice0 10 (readArray h2 results)) h2 in
      (Returned {| resultsRef := sliced;
                   totalResults := length (readArray h2 results) |}, h3)
  end.

(** Loading the module: every result object of the table, then one
    array per keyword. *)
Fixpoint loadObjects (os : list SearchResult) (h : Heap) : list ObjRef * Heap :=
  match os with
  | [] => ([], h)
  | o :: rest =>
      let '(r, h1) := newObject o h in
      let '(rs, h2) := loadObjects rest h1 in
      (r :: rs, h2)
  end.

Fixpoint loadTable (t : list (string * list SearchResult)) (h : Heap)
    : Table * Heap :=
  match t with
  | [] => ([], h)
  | (keyword, os) :: rest =>
      let '(refs, h1) := loadObjects os h in
      let '(a, h2) := newArray refs h1 in
      let '(t', h3) := loadTable rest h2 in
      ((keyword, a) :: t', h3)
  end.

Definition emptyHeap : Heap := {| objects := []; arrays := [] |}.

Definition moduleTable : Table := fst (loadTable mockSearchResults emptyHeap).
Definition moduleHeap : Heap := snd (loadTable mockSearchResults emptyHeap).

(** A table read back as values. *)
Definition tableValues (h : Heap) (t : Table) : list (string * list SearchResult) :=
  map (fun kv => (fst kv, deref h (readArray h (snd kv)))) t.

(** [h'] keeps every object and array of [h] as it was. *)
Definition preserves (h h' : Heap) : Prop :=
  (forall r o, nth_error (objects h) r = Some o ->
               nth_error (objects h') r = Some o) /\
  (forall r a, nth_error (arrays h) r = Some a ->
               nth_error (arrays h') r = Some a).

(** [h'] is [h] with objects and arrays added at the end. *)
Definition extends (h h' : Heap) : Prop :=
  (exists os, objects h' = (objects h ++ os)%list) /\
  (exists ars, arrays h' = (arrays h ++ ars)%list).

(** Every reference of the list denotes an object of [h]. *)
Definition validRefs (h : Heap) (refs : list ObjRef) : Prop :=
  Forall (fun r => r < length (objects h)) refs.

(** The array exists in [h] and holds valid references. *)
Definition validArray (h : Heap) (a : ArrRef) : Prop :=
  a < length (arrays h) /\ validRefs h (readArray h a).

Definition validTable (h : Heap) (t : Table) : Prop :=
  Forall (fun kv => validArray h (snd kv)) t.

End SearchStore.

(* ================================================================== *)
(** ** src/lib/openrouter.ts *)

Module OpenRouter.
Import Exn.
Import Json.
Import Search.

Inductive Role : Type := system | user | assistant.

Record ChatMessage : Type := mkChatMessage {
  role : Role;
  content : string
}.

Record Usage : Type := mkUsage {
  prompt_tokens : nat;
  completion_tokens : nat;
  total_tokens : nat
}.

(** [ChatResponse]; its [content] field is [responseContent] here.
    Both fields hold whatever the reply held: nothing checks that the
    content is a string. *)
Record ChatResponse : Type := mkChatResponse {
  responseContent : Value;
  usage : Value
}.

(** An [OpenRouterClient] object: its identity ([ident], the number of
    clients constructed before it) and its private [apiKey], which no
    method assigns after the constructor.  [baseUrl] and [model] are
    the same for every instance. *)
Record OpenRouterClient : Type := mkClient {
  ident : nat;
  apiKey : string
}.

Definition baseUrl : string := "https://openrouter.ai/api/v1".
Definition model : string := "deepseek/deepseek-chat".

(** The request [chat] sends: the URL, the two headers that vary, and
    of the body the model and the messages (its [temperature],
    [max_tokens] and [stream] are constants). *)
Record FetchRequest : Type := mkFetchRequest {
  requestUrl : string;
  authorization : string;
  referer : string;
  requestModel : string;
  messages : list ChatMessage
}.

(** The body of the backend's reply: not JSON at all (with the message
    of the parse error), or any JSON value. *)
Inductive Body : Type :=
| NotJson (parseError : string)
| IsJson (data : Json).

(** The reply of a backend that follows its interface: an optional
    [error.message], optional [choices], each with a string
    [message.content], and an optional [usage]. *)
Definition choiceJson (text : string) : Json :=
  JObject [("message", JObject [("content", JString text)])].

Definition usageJson (u : Usage) : Json :=
  JObject [("prompt_tokens", ofNat (prompt_tokens u));
           ("completion_tokens", ofNat (completion_tokens u));
           ("total_tokens", ofNat (total_tokens u))].

Definition JsonData (errorMessage : option string)
    (choices : option (list string)) (usageData : option Usage) : Body :=
  IsJson (JObject
    (member "error"
       (option_map (fun m => JObject [("message", JString m)]) errorMessage)
     ++ member "choices"
          (option_map (fun cs => JArray (map choiceJson cs)) choices)
     ++ member "usage" (option_map usageJson usageData))%list).

Record HttpResponse : Type := mkHttpResponse {
  status : nat;
  body : Body
}.

Definition ok (status : nat) : bool := (200 <=? status) && (status <=? 299).

(** [fetch] rejects, or resolves with a response. *)
Inductive FetchResult : Type :=
| FetchRejects (e : Thrown)
| FetchResolves (r : HttpResponse).

(** The generation backend, seen from the server. *)
Definition Backend := FetchRequest -> FetchResult.

(** The server process: its environment, the number of clients
    constructed so far, the module variable [openRouterClient], and
    what it did to the outside: the requests sent and the
    [console.error] lines. *)
Record Server : Type := mkServer {
  OPENROUTER_API_KEY : option string;
  NEXT_PUBLIC_APP_URL : option string;
  constructed : nat;
  openRouterClient : option OpenRouterClient;
  fetchLog : list FetchRequest;
  console : list string
}.

Definition logFetch (req : FetchRequest) (w : Server) : Server :=
  {| OPENROUTER_API_KEY := OPENROUTER_API_KEY w;
     NEXT_PUBLIC_APP_URL := NEXT_PUBLIC_APP_URL w;
     constructed := constructed w;
     openRouterClient := openRouterClient w;
     fetchLog := (fetchLog w ++ [req])%list;
     console := console w |}.

Definition consoleError (line : string) (w : Server) : Server :=
  {| OPENROUTER_API_KEY := OPENROUTER_API_KEY w;
     NEXT_PUBLIC_APP_URL := NEXT_PUBLIC_APP_URL w;
     constructed := constructed w;
     openRouterClient := openRouterClient w;
     fetchLog := fetchLog w;
     console := (console w ++ [line])%list |}.

Definition setEnvKey (v : option string) (w : Server) : Server :=
  {| OPENROUTER_API_KEY := v;
     NEXT_PUBLIC_APP_URL := NEXT_PUBLIC_APP_URL w;
     constructed := constructed w;
     openRouterClient := openRouterClient w;
     fetchLog := fetchLog w;
     console := console w |}.

(** [a || b] on an optional string: [b] when [a] is undefined or empty. *)
Definition orElse (a : option string) (b : string) : string :=
  match a with
  | Some s => if Js.truthy s then s else b
  | None => b
  end.

(** [errorData]: the parsed body, or [{}] when the body does not
    parse. *)
Definition errorData (b : Body) : Json :=
  match b with
  | NotJson _ => JObject []
  | IsJson data => data
  end.

(** [errorData.error?.message]; it throws when [errorData] is null. *)
Definition errorMessage (b : Body) : Outcome Value :=
  match get (Some (errorData b)) "error" with
  | Threw e => Threw e
  | Returned None => Returned None
  | Returned (Some JNull) => Returned None
  | Returned (Some error) => Returned (field error "message")
  end.

(** The text the template literal makes of
    [errorData.error?.message || 'Unknown error']: [Some] text of a
    truthy message, [None] where 'Unknown error' stands for it. *)
Definition errorText (b : Body) : Outcome (option string) :=
  match errorMessage b with
  | Threw e => Threw e
  | Returned m =>
      if truthy m
      then match toString m with
           | Threw e => Threw e
           | Returned text => Returned (Some text)
           end
      else Returned None
  end.

(** [data.choices.length === 0], for truthy [choices]. *)
Definition lengthIsZero (choices : Json) : bool :=
  match choices with
  | JArray [] => true
  | JObject fields =>
      match lookup "length" fields with
      | Some (JNumber _ isZero) => isZero
      | _ => false
      end
  | _ => false
  end.

(** [data.choices[0].message], for truthy [choices]: the element 0 of
    an array, the member [0] of an object, nothing on a number or a
    boolean; on a string the element is a string of one character,
    which has no [message]. *)
Definition firstMessage (choices : Json) : Outcome Value :=
  match choices with
  | JString _ => Returned None
  | JArray (first :: _) => get (Some first) "message"
  | JObject fields => get (lookup "0" fields) "message"
  | _ => get None "message"
  end.

(** What [chat] makes of a reply with a status in 200..299. *)
Definition completion (b : Body) : Outcome ChatResponse :=
  match b with
  | NotJson parseError => Threw (ErrorObj parseError)
  | IsJson data =>
      match get (Some data) "choices" with
      | Threw e => Threw e
      | Returned None =>
          Threw (ErrorObj "No response generated from the model")
      | Returned (Some choices) =>
          if negb (truthy (Some choices)) || lengthIsZero choices then
            Threw (ErrorObj "No response generated from the model")
          else
            match firstMessage choices with
            | Threw e => Threw e
            | Returned message =>
                match get message "content" with
                | Threw e => Threw e
                | Returned content =>
                    Returned {| responseContent := content;
                                usage := field data "usage" |}
                end
            end
      end
  end.

(** The request [chat] builds from the client and the messages. *)
Definition chatRequest (self : OpenRouterClient) (msgs : list ChatMessage)
    (w : Server) : FetchRequest :=
  {| requestUrl := baseUrl ++ "/chat/completions";
     authorization := "Bearer " ++ apiKey self;
     referer := orElse (NEXT_PUBLIC_APP_URL w) "http://localhost:3000";
     requestModel := model;
     messages := msgs |}.

(** The part of [chat] inside [try], once the request is built. *)
Definition chatTry (backend : Backend) (req : FetchRequest) : Outcome ChatResponse :=
  match backend req with
  | FetchRejects e => Threw e
  | FetchResolves response =>
      if negb (ok (status response)) then
        match errorText (body response) with
        | Threw e => Threw e
        | Returned text =>
            Threw (ErrorObj ("OpenRouter API error: "
                             ++ Js.numberToString (status response) ++ " - "
                             ++ match text with
                                | Some message => message
                                | None => "Unknown error"
                                end))
        end
      else completion (body response)
  end.

Definition chat (backend : Backend) (self : OpenRouterClient)
    (msgs : list ChatMessage) (w : Server) : Outcome ChatResponse * Server :=
  let req := chatRequest self msgs w in
  let w1 := logFetch req w in
  match chatTry backend req with
  | Returned r => (Returned r, w1)
  | Threw e => (Threw e, consoleError "OpenRouter API error:" w1)
  end.

Definition systemPrompt : string :=
  "You are an AI research assistant that synthesizes information from web search results to provide comprehensive, accurate answers. Your task is to:" ++ Js.nl
  ++ Js.nl
  ++ "1. Analyze the provided search results" ++ Js.nl
  ++ "2. Extract the most relevant and accurate information" ++ Js.nl
  ++ "3. Synthesize a comprehensive answer that addresses the user's question" ++ Js.nl
  ++ "4. Maintain objectivity and cite sources appropriately" ++ Js.nl
  ++ "5. If there are conflicting information, mention the different perspectives" ++ Js.nl
  ++ "6. Keep the response concise but thorough" ++ Js.nl
  ++ Js.nl
  ++ "Format your response in a clear, well-structured manner with proper citations using [1], [2], etc. that correspond to the source URLs provided.".

(** One element of the [map] that builds the context. *)
Definition contextEntry (result : SearchResult) (index : nat) : string :=
  "[" ++ Js.numberToString (index + 1) ++ "] " ++ title result ++ Js.nl
  ++ "URL: " ++ url result ++ Js.nl
  ++ "Content: " ++ snippet result ++ Js.nl.

Definition searchContext (searchResults : list SearchResult) : string :=
  Js.join Js.nl (Js.mapi contextEntry searchResults).

Definition userPrompt (query : string) (context : string) : string :=
  "Question: " ++ query ++ Js.nl
  ++ Js.nl
  ++ "Search Results:" ++ Js.nl
  ++ context ++ Js.nl
  ++ Js.nl
  ++ "Please provide a comprehensive answer based on these search results. Include relevant citations using the format [1], [2], etc.".

Definition synthesisMessages (query : string) (searchResults : list SearchResult)
    : list ChatMessage :=
  [ {| role := system; content := systemPrompt |};
    {| role := user; content := userPrompt query (searchContext searchResults) |} ].

(** [synthesizeSearchResults] on a string and an array of results, the
    arguments its types ask for. *)
Definition synthesizeSearchResults (backend : Backend) (self : OpenRouterClient)
    (query : string) (searchResults : list SearchResult) (w : Server)
    : Outcome Value * Server :=
  match chat backend self (synthesisMessages query searchResults) w with
  | (Returned response, w1) => (Returned (responseContent response), w1)
  | (Threw e, w1) => (Threw e, w1)
  end.

(** The same method on whatever the caller passes, both parameters
    being unchecked at run time.  One element of the [map]: *)
Definition entryOf (result : Json) (index : nat) : Outcome string :=
  match get (Some result) "title" with
  | Threw e => Threw e
  | Returned t =>
  match toString t with
  | Threw e => Threw e
  | Returned title =>
  match toString (field result "url") with
  | Threw e => Threw e
  | Returned url =>
  match toString (field result "snippet") with
  | Threw e => Threw e
  | Returned snippet =>
      Returned ("[" ++ Js.numberToString (index + 1) ++ "] " ++ title ++ Js.nl
                ++ "URL: " ++ url ++ Js.nl
                ++ "Content: " ++ snippet ++ Js.nl)
  end end end end.

Fixpoint entriesFrom (start : nat) (items : list Json) : Outcome (list string) :=
  match items with
  | [] => Returned []
  | item :: rest =>
      match entryOf item start with
      | Threw e => Threw e
      | Returned entry =>
          match entriesFrom (S start) rest with
          | Threw e => Threw e
          | Returned entries => Returned (entry :: entries)
          end
      end
  end.

(** [searchResults.map(...).join('\n')]: only an array has [map]. *)
Definition contextOf (searchResults : Json) : Outcome string :=
  match searchResults with
  | JArray items =>
      match entriesFrom 0 items with
      | Threw e => Threw e
      | Returned entries => Returned (Js.join Js.nl entries)
      end
  | _ => Threw (notAFunction "searchResults.map")
  end.

Definition synthesizeValues (backend : Backend) (self : OpenRouterClient)
    (query searchResults : Json) (w : Server) : Outcome Value * Server :=
  match contextOf searchResults with
  | Threw e => (Threw e, w)
  | Returned context =>
      match toStringJ query with
      | Threw e => (Threw e, w)
      | Returned question =>
          match chat backend self
                  [ {| role := system; content := systemPrompt |};
                    {| role := user; content := userPrompt question context |} ]
                  w with
          | (Returned response, w1) => (Returned (responseContent response), w1)
          | (Threw e, w1) => (Threw e, w1)
          end
      end
  end.

(** A result as [JSON.stringify] and [JSON.parse] carry it. *)
Definition ofResult (r : SearchResult) : Json :=
  JObject [("title", JString (title r)); ("url", JString (url r));
           ("snippet", JString (snippet r)); ("domain", JString (domain r))].

Definition keyNotConfigured : string := "OpenRouter API key not configured".

(** [openRouterClient = new OpenRouterClient(apiKey)] *)
Definition construct (key : string) (w : Server) : OpenRouterClient * Server :=
  let c := {| ident := constructed w; apiKey := key |} in
  (c,
   {| OPENROUTER_API_KEY := OPENROUTER_API_KEY w;
      NEXT_PUBLIC_APP_URL := NEXT_PUBLIC_APP_URL w;
      constructed := S (constructed w);
      openRouterClient := Some c;
      fetchLog := fetchLog w;
      console := console w |}).

(** The process as it starts: no client yet, nothing sent or logged. *)
Definition startServer (key appUrl : option string) : Server :=
  {| OPENROUTER_API_KEY := key;
     NEXT_PUBLIC_APP_URL := appUrl;
     constructed := 0;
     openRouterClient := None;
     fetchLog := [];
     console := [] |}.

Definition getOpenRouterClient (w : Server) : Outcome OpenRouterClient * Server :=
  match openRouterClient w with
  | Some c => (Returned c, w)
  | None =>
      match OPENROUTER_API_KEY w with
      | None => (Threw (ErrorObj keyNotConfigured), w)
      | Some key =>
          if negb (Js.truthy key)
          then (Threw (ErrorObj keyNotConfigured), w)
          else let '(c, w1) := construct key w in (Returned c, w1)
      end
  end.

End OpenRouter.

(* ================================================================== *)
(** ** src/app/api/synthesize/route.ts *)

Module Route.
Import Exn.
Import Json.
Import Search.
Import OpenRouter.

(** What [await request.json()] gives: it throws, or it yields the
    parsed body, any JSON value. *)
Inductive RequestJson : Type :=
| Unreadable (e : Thrown)
| ParsedJson (body : Json).

(** The body [handleSearch] sends,
    [JSON.stringify({ query, searchResults })], read back; a field that
    is left out is [None]. *)
Definition Parsed (query : option string)
    (searchResults : option (list SearchResult)) : RequestJson :=
  ParsedJson (JObject
    (member "query" (option_map JString query)
     ++ member "searchResults"
          (option_map (fun rs => JArray (map ofResult rs)) searchResults))%list).

(** The answer of the endpoint.  In [{ answer }] the answer is whatever
    the synthesis returned; an [undefined] answer is left out by
    [JSON.stringify]. *)
Inductive ResponseJson : Type :=
| ErrorJson (error : string)
| AnswerJson (answer : Value).

Record NextResponse : Type := mkNextResponse {
  status : nat;
  json : ResponseJson
}.

(** The body of the [try] block.  The destructuring throws on a null
    body and reads [undefined] from a body that is no object. *)
Definition postTry (backend : Backend) (request : RequestJson) (w : Server)
    : Outcome NextResponse * Server :=
  match request with
  | Unreadable e => (Threw e, w)
  | ParsedJson JNull => (Threw (cannotDestructure "query"), w)
  | ParsedJson body =>
      match field body "query", field body "searchResults" with
      | Some query, Some searchResults =>
          if negb (truthy (Some query)) || negb (truthy (Some searchResults)) then
            (Returned {| status := 400;
                         json := ErrorJson "Query and search results are required" |}, w)
          else
            match getOpenRouterClient w with
            | (Threw e, w1) => (Threw e, w1)
            | (Returned client, w1) =>
                match synthesizeValues backend client query searchResults w1 with
                | (Threw e, w2) => (Threw e, w2)
                | (Returned answer, w2) =>
                    (Returned {| status := 200; json := AnswerJson answer |}, w2)
                end
            end
      | _, _ =>
          (Returned {| status := 400;
                       json := ErrorJson "Query and search results are required" |}, w)
      end
  end.

(** The [catch] clause. *)
Definition postCatch (e : Thrown) : NextResponse :=
  match e with
  | ErrorObj message =>
      if Js.includes message "API key not configured"
      then {| status := 500; json := ErrorJson "OpenRouter API key not configured" |}
      else {| status := 500; json := ErrorJson message |}
  | OtherValue =>
      {| status := 500; json := ErrorJson "Internal server error" |}
  end.

Definition POST (backend : Backend) (request : RequestJson) (w : Server)
    : NextResponse * Server :=
  match postTry backend request w with
  | (Returned response, w1) => (response, w1)
  | (Threw e, w1) => (postCatch e, consoleError "Synthesis API error:" w1)
  end.

End Route.

(* ================================================================== *)
(** ** The life of the server process *)

Module Process.
Import OpenRouter.

(** What happens to the server between two moments: the environment
    variable is set, changed or removed; the client is asked for; a
    request is handled. *)
Inductive step : Server -> Server -> Prop :=
| step_env (v : option string) (w : Server) :
    step w (setEnvKey v w)
| step_get (w : Server) :
    step w (snd (getOpenRouterClient w))
| step_post (backend : Backend) (request : Route.RequestJson) (w : Server) :
    step w (snd (Route.POST backend request w)).

Inductive steps : Server -> Server -> Prop :=
| steps_none (w : Server) : steps w w
| steps_more (w1 w2 w3 : Server) : steps w1 w2 -> step w2 w3 -> steps w1 w3.

End Process.

(* ================================================================== *)
(** ** src/components/SearchInterface.tsx *)

Module SearchInterface.
Import Exn.

Record Citation : Type := mkCitation {
  number : nat;
  title : string;
  url : string;
  domain : string
}.

(** The component's [SearchResponse]; [answer] is [data.answer],
    whatever the reply held there, undefined when it has no such
    field. *)
Record SearchResponse : Type := mkSearchResponse {
  answer : Json.Value;
  citations : list Citation;
  searchResults : list Search.SearchResult
}.

(** The four [useState] cells. *)
Record State : Type := mkState {
  query : string;
  loading : bool;
  response : option SearchResponse;
  error : option string
}.

(** What the handler did outside the component. *)
Inductive Call : Type :=
| CallSearchWeb (q : string)
| CallSynthesize (q : string) (results : list Search.SearchResult).

Record Browser : Type := mkBrowser {
  ui : State;
  calls : list Call
}.

(** The retrieval function the component imports: given the query it
    resolves with a response or rejects. *)
Definition Retrieval := string -> Outcome Search.SearchResponse.

(** The [searchWeb] of [src/lib/search.ts]. *)
Definition mockRetrieval : Retrieval := Search.searchWeb.

(** The link between browser and server: the request reaches the
    route, or [fetch] rejects. *)
Inductive Link : Type :=
| Reaches
| Fails (e : Thrown).

(** The [map] that creates the citations. *)
Definition toCitation (result : Search.SearchResult) (index : nat) : Citation :=
  {| number := index + 1;
     title := Search.title result;
     url := Search.url result;
     domain := Search.domain result |}.

Definition createCitations (results : list Search.SearchResult) : list Citation :=
  Js.mapi toCitation results.

Definition dataAnswer (j : Route.ResponseJson) : Json.Value :=
  match j with
  | Route.AnswerJson a => a
  | Route.ErrorJson _ => None
  end.

(** The body of the [try] block: the outcome, the calls made and the
    server afterwards.  The request body is
    [JSON.stringify({ query, searchResults: searchResults.results })],
    which the route reads back as the same two values. *)
Definition searchTry (searchWeb : Retrieval) (link : Link)
    (backend : OpenRouter.Backend) (q : string) (srv : OpenRouter.Server)
    : Outcome SearchResponse * list Call * OpenRouter.Server :=
  match searchWeb q with
  | Threw e => (Threw e, [CallSearchWeb q], srv)
  | Returned found =>
      let sent := Search.results found in
      let made := [CallSearchWeb q; CallSynthesize q sent] in
      match link with
      | Fails e => (Threw e, made, srv)
      | Reaches =>
          let '(apiResponse, srv1) :=
            Route.POST backend (Route.Parsed (Some q) (Some sent)) srv in
          if negb (OpenRouter.ok (Route.status apiResponse)) then
            (Threw (ErrorObj ("API error: "
                              ++ Js.numberToString (Route.status apiResponse))),
             made, srv1)
          else
            (Returned {| answer := dataAnswer (Route.json apiResponse);
                         citations := createCitations sent;
                         searchResults := sent |},
             made, srv1)
      end
  end.

(** [err instanceof Error ? err.message : 'An error occurred'] *)
Definition errorText (e : Thrown) : string :=
  match e with
  | ErrorObj message => message
  | OtherValue => "An error occurred"
  end.

(** [handleSearch], from the state at submission to the state when
    the handler has finished: [loading] is back to [false], and
    exactly one of [response] and [error] is set. *)
Definition handleSearch (searchWeb : Retrieval) (link : Link)
    (backend : OpenRouter.Backend) (b : Browser) (srv : OpenRouter.Server)
    : Browser * OpenRouter.Server :=
  let q := query (ui b) in
  if negb (Js.truthy (Js.trim q)) then (b, srv)
  else
    let '(outcome, made, srv1) := searchTry searchWeb link backend q srv in
    let ui1 :=
      match outcome with
      | Returned r =>
          {| query := q; loading := false; response := Some r; error := None |}
      | Threw e =>
          {| query := q; loading := false; response := None;
             error := Some (errorText e) |}
      end in
    ({| ui := ui1; calls := (calls b ++ made)%list |}, srv1).

(** The component as it mounts: the initial values of [useState]. *)
Definition initialBrowser : Browser :=
  {| ui := {| query := EmptyString; loading := false;
              response := None; error := None |};
     calls := [] |}.

Definition setQuery (q : string) (b : Browser) : Browser :=
  {| ui := {| query := q; loading := loading (ui b);
              response := response (ui b); error := error (ui b) |};
     calls := calls b |}.

End SearchInterface.

(* ================================================================== *)
(** ** Values the scenarios below are run on: the two entries of the
    mock table that the end-to-end scenario names, and a failing
    retrieval *)

Module Scenario.
Import Search.

Definition ibmResult : SearchResult :=
  {| title := "What is Artificial Intelligence (AI)? | IBM";
     url := "https://www.ibm.com/topics/artificial-intelligence";
     snippet := "Artificial intelligence leverages computers and machines to mimic the problem-solving and decision-making capabilities of the human mind.";
     domain := "ibm.com" |}.

Definition stanfordResult : SearchResult :=
  {| title := "Artificial Intelligence | Stanford HAI";
     url := "https://hai.stanford.edu/what-ai";
     snippet := "AI is a broad field of computer science concerned with building smart machines capable of performing tasks that typically require human intelligence.";
     domain := "stanford.edu" |}.

(** A query that is one unpaired surrogate, U+D800. *)
Definition loneSurrogate : string :=
  String (ascii_of_nat 237) (String (ascii_of_nat 160)
    (String (ascii_of_nat 128) EmptyString)).

(** A retrieval that rejects, as a search API that is down would. *)
Definition searchDown : SearchInterface.Retrieval :=
  fun _ => Exn.Threw (Exn.ErrorObj "Search API error: 503").

End Scenario.

(* ================================================================== *)
(** ** src/components/SearchInterface.tsx: what is rendered *)

Module Render.
Import SearchInterface.

(** [s.split(sep)] for a separator of one character. *)
Fixpoint split (sep : ascii) (s : string) : list string :=
  match s with
  | EmptyString => [EmptyString]
  | String c r =>
      if Ascii.eqb c sep then EmptyString :: split sep r
      else match split sep r with
           | [] => [String c EmptyString]
           | piece :: pieces => String c piece :: pieces
           end
  end.


(** [disabled={loading || !query.trim()}] of the submit button. *)
Definition submitDisabled (s : State) : bool :=
  loading s || negb (Js.truthy (Js.trim (query s))).

(** The [key] of each element of the list of sources:
    [key={citation.number}]. *)
Definition sourceKeys (r : SearchResponse) : list nat :=
  map number (citations r).

End Render.

(* ================================================================== *)
(** ** The entries of a table that a query selects *)

Module Matching.
Import Search.

(** The entries whose keyword the lowered query contains, in the order
    of the table. *)
Definition matching (lowercaseQuery : string)
    (table : list (string * list SearchResult)) : list (string * list SearchResult) :=
  filter (fun kv => Js.includes lowercaseQuery (fst kv)) table.

(** Their results, one list after the other; [lower] stands for
    [String.prototype.toLowerCase]. *)
Definition foundWith (lower : string -> string) (query : string)
    (table : list (string * list SearchResult)) : list SearchResult :=
  concat (map snd (matching (lower query) table)).

Definition found (query : string) (table : list (string * list SearchResult))
    : list SearchResult :=
  foundWith Js.toLowerCase query table.

End Matching.

(* ================================================================== *)
(** ** A sequence of calls of [searchWeb] on one store *)

Module Serving.
Import Exn.
Import SearchStore.

Fixpoint serve (table : Table) (queries : list string) (h : Heap)
    : list (Outcome Response) * Heap :=
  match queries with
  | [] => ([], h)
  | query :: rest =>
      let '(r, h1) := searchWeb table query h in
      let '(rs, h2) := serve table rest h1 in
      (r :: rs, h2)
  end.

(** What a response reads as in a store: its results, or the error. *)
Definition readOutcome (h : Heap) (o : Outcome Response)
    : Outcome (list Search.SearchResult) :=
  match o with
  | Returned r => Returned (deref h (readArray h (resultsRef r)))
  | Threw e => Threw e
  end.

End Serving.

(* ================================================================== *)
(** ** The shape of a request to the backend *)

Module Requests.
Import OpenRouter.

(** The request is the one [chat] builds for a synthesis with the
    client [c]: the completions URL, the model, the bearer key of [c],
    and two messages, the system prompt and a user prompt. *)
Definition synthesisRequestOf (c : OpenRouterClient) (req : FetchRequest) : Prop :=
  requestUrl req = "https://openrouter.ai/api/v1/chat/completions" /\
  requestModel req = "deepseek/deepseek-chat" /\
  authorization req = "Bearer " ++ apiKey c /\
  exists query results,
    messages req =
      [ {| role := system; content := systemPrompt |};
        {| role := user;
           content := userPrompt query (searchContext results) |} ].

(** What holds of a server at any moment of its life. *)
Definition sound (w : Server) : Prop :=
  match openRouterClient w with
  | None => constructed w = 0 /\ fetchLog w = []
  | Some c =>
      constructed w = 1 /\ ident c = 0 /\ Js.truthy (apiKey c) = true /\
      Forall (synthesisRequestOf c) (fetchLog w)
  end.

End Requests.

(* ================================================================== *)
(** ** Characters of a string *)

Module Chars.

(** Every character of [s] passes the test [p]. *)
Fixpoint allChars (p : ascii -> bool) (s : string) : bool :=
  match s with
  | EmptyString => true
  | String c r => p c && allChars p r
  end.

End Chars.

(* ================================================================== *)

(* ================================================================== *)
(** * Properties *)

(** ** Facts about the runtime functions *)

Section JsFacts.

Lemma append_empty_r (s : string) : s ++ EmptyString = s.
Proof. induction s as [|c s IH]; simpl; [reflexivity | now rewrite IH]. Qed.

Lemma append_assoc (a b c : string) : (a ++ b) ++ c = a ++ (b ++ c).
Proof. induction a as [|x a IH]; simpl; [reflexivity | now rewrite IH]. Qed.

Lemma prefix_append (p s : string) : String.prefix p (p ++ s) = true.
Proof.
  induction p as [|c p IH]; simpl.
  - destruct s; reflexivity.
  - destruct (ascii_dec c c) as [_|ne]; [exact IH | now elim ne].
Qed.

Lemma prefix_split (p s : string) :
  String.prefix p s = true -> exists rest, s = p ++ rest.
Proof.
  revert p; induction s as [|c s IH]; intros [|d p] H; simpl in *.
  - now exists EmptyString.
  - discriminate.
  - now exists (String c s).
  - destruct (ascii_dec d c) as [->|]; [|discriminate].
    destruct (IH p H) as [rest ->]. now exists rest.
Qed.

Lemma includes_here (s sub : string) :
  String.prefix sub s = true -> Js.includes s sub = true.
Proof. intros H. destruct s; cbn [Js.includes]; now rewrite H. Qed.

Lemma includes_later (c : ascii) (s sub : string) :
  Js.includes s sub = true -> Js.includes (String c s) sub = true.
Proof.
  intros H. cbn [Js.includes].
  now destruct (String.prefix sub (String c s)).
Qed.

(** [includes] finds every occurrence ... *)
Lemma includes_intro (before sub after : string) :
  Js.includes (before ++ sub ++ after) sub = true.
Proof.
  induction before as [|c before IH]; simpl append.
  - apply includes_here, prefix_append.
  - now apply includes_later.
Qed.

(** ... and only occurrences. *)
Lemma includes_elim (s sub : string) :
  Js.includes s sub = true ->
  exists before after, s = before ++ sub ++ after.
Proof.
  induction s as [|c s IH]; cbn [Js.includes]; intros H.
  - destruct sub as [|d sub]; [|discriminate].
    now exists EmptyString, EmptyString.
  - destruct (String.prefix sub (String c s)) eqn:P.
    + destruct (prefix_split _ _ P) as [rest E].
      exists EmptyString, rest. exact E.
    + destruct (IH H) as (before & after & ->).
      now exists (String c before), after.
Qed.

Lemma includes_append_l (p s sub : string) :
  Js.includes s sub = true -> Js.includes (p ++ s) sub = true.
Proof.
  intros H. induction p as [|c p IH]; [exact H|].
  simpl append. now apply includes_later.
Qed.

Lemma includes_trans (s mid sub : string) :
  Js.includes s mid = true -> Js.includes mid sub = true ->
  Js.includes s sub = true.
Proof.
  intros H1 H2.
  destruct (includes_elim _ _ H1) as (a & b & ->).
  destruct (includes_elim _ _ H2) as (c & d & ->).
  replace (a ++ (c ++ sub ++ d) ++ b) with ((a ++ c) ++ sub ++ (d ++ b)).
  - apply includes_intro.
  - now rewrite !append_assoc.
Qed.

Context {A B : Type} (f : A -> nat -> B).



Lemma mapFrom_combine (start : nat) (xs : list A) :
  Js.mapFrom f start xs =
  map (fun p => f (snd p) (fst p)) (combine (seq start (length xs)) xs).
Proof.
  revert start; induction xs as [|x xs IH]; intros start; simpl;
    [reflexivity | now rewrite IH].
Qed.

Lemma mapFrom_app (start : nat) (xs ys : list A) :
  Js.mapFrom f start (xs ++ ys) =
  (Js.mapFrom f start xs ++ Js.mapFrom f (start + length xs) ys)%list.
Proof.
  revert start; induction xs as [|x xs IH]; intros start; simpl.
  - now rewrite Nat.add_0_r.
  - rewrite IH. now rewrite Nat.add_succ_r.
Qed.

End JsFacts.

(** Finds a part of a concatenation, walking over what precedes it. *)
Ltac find_part :=
  repeat first [ apply includes_here; apply prefix_append
               | apply includes_append_l ].

Lemma join_cons (sep x : string) (xs : list string) :
  Js.join sep (x :: xs) =
  x ++ (match xs with [] => EmptyString | _ => sep ++ Js.join sep xs end).
Proof. destruct xs; simpl; [now rewrite append_empty_r | reflexivity]. Qed.

Lemma join_middle (sep : string) (xs : list string) (y : string) (ys : list string) :
  Js.join sep (xs ++ y :: ys) =
  (match xs with [] => EmptyString | _ => Js.join sep xs ++ sep end)
  ++ y
  ++ (match ys with [] => EmptyString | _ => sep ++ Js.join sep ys end).
Proof.
  induction xs as [|x xs IH].
  - simpl app. rewrite join_cons. reflexivity.
  - change ((x :: xs) ++ y :: ys)%list with (x :: (xs ++ y :: ys))%list.
    rewrite join_cons, IH, (join_cons sep x xs).
    destruct xs as [|x' xs]; simpl app.
    + now rewrite append_empty_r, !append_assoc.
    + now rewrite !append_assoc.
Qed.

(* ================================================================== *)
(** ** The citation table *)

Section Citations.
Import SearchInterface.



Lemma mapFrom_numbers (start : nat) (results : list Search.SearchResult) :
  map number (Js.mapFrom toCitation start results) =
  seq (start + 1) (length results).
Proof.
  revert start; induction results as [|r rs IH]; intros start; simpl;
    [reflexivity | now rewrite IH].
Qed.



(** Whenever the handler's [try] block produces a response, its
    citation table is the one built from the results it displays, the
    very list that was sent for synthesis. *)
Lemma searchTry_citations searchWeb link backend q srv r made srv' :
  searchTry searchWeb link backend q srv = (Exn.Returned r, made, srv') ->
  citations r = createCitations (searchResults r) /\
  made = [CallSearchWeb q; CallSynthesize q (searchResults r)].
Proof.
  unfold searchTry.
  destruct (searchWeb q) as [found|e]; [|discriminate].
  destruct link as [|e]; [|discriminate].
  destruct (Route.POST _ _ _) as [apiResponse srv1].
  destruct (negb _); [discriminate|].
  intros H; injection H as <- <- _. now split.
Qed.

End Citations.

(* ================================================================== *)
(** ** The grounding context *)

Section Context.
Import Exn OpenRouter.

Lemma firstn_nth_skipn {A : Type} (xs : list A) (i : nat) (x : A) :
  nth_error xs i = Some x ->
  xs = (firstn i xs ++ x :: skipn (S i) xs)%list.
Proof.
  revert i; induction xs as [|y xs IH]; intros [|i] H; simpl in *;
    try discriminate.
  - now injection H as ->.
  - f_equal. now apply IH.
Qed.

Lemma mapFrom_firstn {A B : Type} (f : A -> nat -> B) (start i : nat) (xs : list A) :
  Js.mapFrom f start (firstn i xs) = firstn i (Js.mapFrom f start xs).
Proof.
  revert start i; induction xs as [|x xs IH]; intros start [|i]; simpl;
    try reflexivity.
  now rewrite IH.
Qed.

(** The context splits around the entry of any result: before it
    stands the context of the results that precede it. *)
Lemma searchContext_split (rs : list Search.SearchResult) (i : nat)
    (r : Search.SearchResult) :
  nth_error rs i = Some r ->
  exists after,
    searchContext rs =
    (match i with 0 => EmptyString
                | _ => searchContext (firstn i rs) ++ Js.nl end)
    ++ contextEntry r i ++ after.
Proof.
  intros H.
  assert (L : length (firstn i rs) = i).
  { rewrite length_firstn. apply Nat.min_l.
    apply Nat.lt_le_incl, nth_error_Some. now rewrite H. }
  assert (E : Js.mapi contextEntry rs =
              (Js.mapi contextEntry (firstn i rs)
               ++ contextEntry r i
               :: Js.mapFrom contextEntry (S i) (skipn (S i) rs))%list).
  { unfold Js.mapi. rewrite (firstn_nth_skipn rs i r H) at 1.
    rewrite mapFrom_app. cbn [Js.mapFrom]. now rewrite L, !Nat.add_0_l. }
  unfold searchContext at 1. rewrite E, join_middle.
  eexists. f_equal.
  destruct i as [|i]; [reflexivity|].
  destruct rs as [|r0 rs]; [discriminate|]. reflexivity.
Qed.

(** What a call of [synthesizeSearchResults] sends does not depend on
    the server's state or on the backend. *)
Lemma synthesize_sends backend self query rs w :
  fetchLog (snd (synthesizeSearchResults backend self query rs w)) =
  (fetchLog w ++
   [ {| requestUrl := "https://openrouter.ai/api/v1/chat/completions";
        authorization := "Bearer " ++ apiKey self;
        referer := orElse (NEXT_PUBLIC_APP_URL w) "http://localhost:3000";
        requestModel := "deepseek/deepseek-chat";
        messages := synthesisMessages query rs |} ])%list.
Proof.
  unfold synthesizeSearchResults, chat.
  destruct (chatTry _ _); reflexivity.
Qed.

(** C2.  The context block is a function of the list of results
    alone: it is the entries of the results, in input order, joined
    by a newline; the entry of the result at position i is labelled
    [i+1] and carries that result's title, URL and snippet whole; it
    is this block that the generation request carries, whatever the
    state of the server. *)
Theorem searchContext_in_input_order (rs : list Search.SearchResult) :
  searchContext rs =
    Js.join Js.nl
      (map (fun p => contextEntry (snd p) (fst p))
           (combine (seq 0 (length rs)) rs)) /\
  (forall i r, nth_error rs i = Some r ->
     contextEntry r i =
       "[" ++ Js.numberToString (i + 1) ++ "] " ++ Search.title r ++ Js.nl
       ++ "URL: " ++ Search.url r ++ Js.nl
       ++ "Content: " ++ Search.snippet r ++ Js.nl /\
     Js.includes (searchContext rs) (contextEntry r i) = true /\
     Js.includes (searchContext rs) (Search.title r) = true /\
     Js.includes (searchContext rs) (Search.url r) = true /\
     Js.includes (searchContext rs) (Search.snippet r) = true /\
     exists after,
       searchContext rs =
       (match i with 0 => EmptyString
                   | _ => searchContext (firstn i rs) ++ Js.nl end)
       ++ contextEntry r i ++ after) /\
  (forall backend self query w,
     exists request,
       fetchLog (snd (synthesizeSearchResults backend self query rs w)) =
         (fetchLog w ++ [request])%list /\
       map content (messages request) =
         [systemPrompt; userPrompt query (searchContext rs)]).
Proof.
  split; [|split].
  - unfold searchContext, Js.mapi. now rewrite mapFrom_combine.
  - intros i r H.
    destruct (searchContext_split rs i r H) as [after E].
    assert (In_ctx : Js.includes (searchContext rs) (contextEntry r i) = true).
    { rewrite E. apply includes_intro. }
    split; [reflexivity|]. split; [exact In_ctx|].
    repeat split.
    + apply (includes_trans _ _ _ In_ctx). unfold contextEntry. find_part.
    + apply (includes_trans _ _ _ In_ctx). unfold contextEntry. find_part.
    + apply (includes_trans _ _ _ In_ctx). unfold contextEntry. find_part.
    + now exists after.
  - intros backend self query w. eexists. split.
    + apply synthesize_sends.
    + reflexivity.
Qed.

Lemma searchContext_in_input_order_witness :
  let rs := nth 0 (map snd Search.mockSearchResults) [] in
  let r := {| Search.title := "What is Climate Change? | United Nations";
              Search.url := "https://www.un.org/en/climatechange/what-is-climate-change";
              Search.snippet := "Climate change refers to long-term shifts in temperatures and weather patterns. While climate changes may be natural, since the 1800s, human activities have been the main driver of climate change.";
              Search.domain := "un.org" |} in
  nth_error rs 1 = Some r /\
  Js.includes (searchContext rs) (Search.snippet r) = true.
Proof.
  intros rs r. split; [reflexivity|].
  destruct (searchContext_in_input_order rs) as (_ & Entries & _).
  destruct (Entries 1 r eq_refl) as (_ & _ & _ & _ & Whole & _).
  exact Whole.
Defined.

End Context.

(* ================================================================== *)
(** ** Retrieval: the store *)

Section StoreFacts.
Import Exn SearchStore.

Lemma extends_refl (h : Heap) : extends h h.
Proof. split; exists []; now rewrite app_nil_r. Qed.

Lemma extends_trans (h1 h2 h3 : Heap) :
  extends h1 h2 -> extends h2 h3 -> extends h1 h3.
Proof.
  intros [[o1 O1] [a1 A1]] [[o2 O2] [a2 A2]]. split.
  - exists (o1 ++ o2)%list. now rewrite O2, O1, app_assoc.
  - exists (a1 ++ a2)%list. now rewrite A2, A1, app_assoc.
Qed.

Lemma newObject_extends (o : Search.SearchResult) (h : Heap) :
  extends h (snd (newObject o h)).
Proof. split; simpl; [now exists [o] | exists []; now rewrite app_nil_r]. Qed.

Lemma newArray_extends (a : list ObjRef) (h : Heap) :
  extends h (snd (newArray a h)).
Proof. split; simpl; [exists []; now rewrite app_nil_r | now exists [a]]. Qed.

Lemma extends_preserves (h h' : Heap) : extends h h' -> preserves h h'.
Proof.
  intros [[os O] [ars A]]. split; intros r x H.
  - rewrite O, nth_error_app1; [exact H|].
    apply nth_error_Some. now rewrite H.
  - rewrite A, nth_error_app1; [exact H|].
    apply nth_error_Some. now rewrite H.
Qed.

Lemma extends_arrays_le (h h' : Heap) :
  extends h h' -> length (arrays h) <= length (arrays h').
Proof. intros [_ [ars A]]. rewrite A, length_app. lia. Qed.

Lemma extends_objects_le (h h' : Heap) :
  extends h h' -> length (objects h) <= length (objects h').
Proof. intros [[os O] _]. rewrite O, length_app. lia. Qed.

Lemma readArray_new (a : list ObjRef) (h : Heap) :
  readArray (snd (newArray a h)) (fst (newArray a h)) = a.
Proof.
  unfold readArray; simpl. rewrite app_nth2 by lia.
  now rewrite Nat.sub_diag.
Qed.

Lemma readArray_extends (h h' : Heap) (a : ArrRef) :
  extends h h' -> a < length (arrays h) -> readArray h' a = readArray h a.
Proof.
  intros [_ [ars A]] L. unfold readArray. rewrite A. now apply app_nth1.
Qed.

Lemma collectMatches_extends lq (table : Table) :
  forall results h, extends h (snd (collectMatches lq table results h)).
Proof.
  induction table as [|[keyword mock] rest IH]; intros results h; simpl.
  - apply extends_refl.
  - destruct (Js.includes lq keyword).
    + eapply extends_trans; [apply newArray_extends | apply IH].
    + apply IH.
Qed.


Lemma encode_none query :
  Js.encodeURIComponent query = None -> Js.hasLoneSurrogate query = true.
Proof.
  unfold Js.encodeURIComponent.
  destruct (Js.hasLoneSurrogate query); [reflexivity | discriminate].
Qed.

Lemma encode_some query :
  Js.hasLoneSurrogate query = false ->
  Js.encodeURIComponent query = Some (Js.percentEncodeAll query).
Proof. unfold Js.encodeURIComponent. now intros ->. Qed.

Lemma genericArray_extends query h : extends h (snd (genericArray query h)).
Proof.
  unfold genericArray.
  destruct (Js.encodeURIComponent query) as [encoded|]; [|apply extends_refl].
  split; simpl.
  - exists [Search.genericFirst query encoded; Search.genericSecond query].
    now rewrite <- app_assoc.
  - now eexists.
Qed.

Lemma genericArray_threw query h e :
  fst (genericArray query h) = Threw e ->
  e = uriMalformed /\ Js.hasLoneSurrogate query = true /\
  snd (genericArray query h) = h.
Proof.
  unfold genericArray.
  destruct (Js.encodeURIComponent query) as [encoded|] eqn:E.
  - discriminate.
  - simpl. intros H; injection H as <-.
    repeat split. now apply encode_none.
Qed.

Lemma gatherResults_extends table query h :
  extends h (snd (gatherResults table query h)).
Proof.
  unfold gatherResults.
  pose proof (newArray_extends [] h) as E0.
  destruct (newArray [] h) as [results0 h0]; simpl in E0.
  pose proof (collectMatches_extends (Js.toLowerCase query) table results0 h0) as E1.
  destruct (collectMatches _ table results0 h0) as [results1 h1]; simpl in E1.
  destruct (length (readArray h1 results1) =? 0).
  - eapply extends_trans; [exact E0|].
    eapply extends_trans; [exact E1 | apply genericArray_extends].
  - simpl. eapply extends_trans; eassumption.
Qed.

Lemma gatherResults_threw table query h e :
  fst (gatherResults table query h) = Threw e ->
  e = uriMalformed /\ Js.hasLoneSurrogate query = true.
Proof.
  unfold gatherResults.
  destruct (newArray [] h) as [results0 h0].
  destruct (collectMatches _ table results0 h0) as [results1 h1].
  destruct (length (readArray h1 results1) =? 0); [|discriminate].
  intros T. now destruct (genericArray_threw query h1 e T) as (A & B & _).
Qed.

Lemma gatherResults_returns table query h :
  Js.hasLoneSurrogate query = false ->
  exists results, fst (gatherResults table query h) = Returned results.
Proof.
  intros Clean.
  destruct (fst (gatherResults table query h)) as [results|e] eqn:G.
  - now exists results.
  - destruct (gatherResults_threw table query h e G) as [_ Lone]. congruence.
Qed.

Lemma searchWeb_extends table query h :
  extends h (snd (searchWeb table query h)).
Proof.
  unfold searchWeb.
  pose proof (gatherResults_extends table query h) as E.
  destruct (gatherResults table query h) as [[results|e] h2]; simpl in E;
    [|exact E].
  simpl. eapply extends_trans; [exact E|].
  apply (newArray_extends (Js.slice0 10 (readArray h2 results)) h2).
Qed.

(** What a call that returns leaves behind. *)
Lemma searchWeb_returned table query h r :
  fst (searchWeb table query h) = Returned r ->
  exists results,
    fst (gatherResults table query h) = Returned results /\
    let h2 := snd (gatherResults table query h) in
    let h' := snd (searchWeb table query h) in
    resultsRef r = length (arrays h2) /\
    readArray h' (resultsRef r) = Js.slice0 10 (readArray h2 results) /\
    totalResults r = length (readArray h2 results) /\
    length (arrays h') = S (length (arrays h2)) /\
    objects h' = objects h2 /\
    extends h2 h'.
Proof.
  unfold searchWeb.
  destruct (gatherResults table query h) as [[results|e] h2]; [|discriminate].
  cbn [fst snd]. intros R.
  exists results. split; [reflexivity|].
  remember (Js.slice0 10 (readArray h2 results)) as sliced eqn:S.
  pose proof (readArray_new sliced h2) as New.
  pose proof (newArray_extends sliced h2) as Ext.
  unfold newArray in *. cbn [fst snd] in *.
  injection R as <-. cbn [resultsRef totalResults arrays objects].
  split; [reflexivity|]. split; [exact New|]. split; [reflexivity|].
  split; [rewrite length_app; simpl; lia|].
  split; [reflexivity | exact Ext].
Qed.


Lemma searchWeb_ref_fresh table query h r :
  fst (searchWeb table query h) = Returned r ->
  length (arrays h) <= resultsRef r < length (arrays (snd (searchWeb table query h))).
Proof.
  intros R. destruct (searchWeb_returned table query h r R)
    as (results & _ & Ref & _ & _ & Len & _).
  pose proof (gatherResults_extends table query h) as E.
  apply extends_arrays_le in E. lia.
Qed.





(** *** The store model computes what the value model computes *)

Lemma validRefs_extends h h' refs :
  extends h h' -> validRefs h refs -> validRefs h' refs.
Proof.
  intros E V. apply extends_objects_le in E.
  unfold validRefs in *. eapply Forall_impl; [|exact V].
  simpl; intros; lia.
Qed.

Lemma validArray_extends h h' a :
  extends h h' -> validArray h a -> validArray h' a.
Proof.
  intros E [L V]. split.
  - apply extends_arrays_le in E. lia.
  - rewrite (readArray_extends h h' a E L). now apply (validRefs_extends h).
Qed.

Lemma deref_extends h h' refs :
  extends h h' -> validRefs h refs -> deref h' refs = deref h refs.
Proof.
  intros E V. induction V as [|r refs L V IH]; simpl; [reflexivity|].
  unfold readObject.
  destruct (nth_error (objects h) r) as [o|] eqn:N.
  - destruct (extends_preserves h h' E) as [P _].
    now rewrite (P r o N), IH.
  - apply nth_error_None in N. lia.
Qed.

Lemma deref_app h a b : deref h (a ++ b) = (deref h a ++ deref h b)%list.
Proof.
  induction a as [|r a IH]; simpl; [reflexivity|].
  destruct (readObject h r); simpl; now rewrite IH.
Qed.

Lemma deref_length h refs :
  validRefs h refs -> length (deref h refs) = length refs.
Proof.
  intros V. induction V as [|r refs L V IH]; simpl; [reflexivity|].
  unfold readObject.
  destruct (nth_error (objects h) r) eqn:N; simpl.
  - now rewrite IH.
  - apply nth_error_None in N. lia.
Qed.

Lemma validRefs_firstn h n refs :
  validRefs h refs -> validRefs h (firstn n refs).
Proof.
  intros V. revert n.
  induction V as [|r refs L V IH]; intros [|n]; simpl; constructor;
    [exact L | apply IH].
Qed.

Lemma deref_firstn h n refs :
  validRefs h refs -> deref h (firstn n refs) = firstn n (deref h refs).
Proof.
  intros V. revert n.
  induction V as [|r refs L V IH]; intros [|n]; simpl; try reflexivity.
  unfold readObject.
  destruct (nth_error (objects h) r) eqn:N; simpl.
  - now rewrite IH.
  - apply nth_error_None in N. lia.
Qed.

Lemma tableValues_extends h h' t :
  extends h h' -> validTable h t -> tableValues h' t = tableValues h t.
Proof.
  intros E V. induction V as [|[k a] t [L VR] V IH]; simpl; [reflexivity|].
  simpl in L, VR.
  rewrite IH, (readArray_extends h h' a E L).
  now rewrite (deref_extends h h' _ E VR).
Qed.

Lemma validTable_extends h h' t :
  extends h h' -> validTable h t -> validTable h' t.
Proof.
  intros E V. unfold validTable in *. eapply Forall_impl; [|exact V].
  intros kv. now apply validArray_extends.
Qed.

Lemma collectMatches_refines lq (table : Table) :
  forall results h,
    validTable h table -> validArray h results ->
    let out := collectMatches lq table results h in
    validArray (snd out) (fst out) /\
    deref (snd out) (readArray (snd out) (fst out)) =
    Search.collectMatches lq (tableValues h table)
                          (deref h (readArray h results)).
Proof.
  induction table as [|[keyword mock] rest IH]; intros results h VT VA;
    cbn [collectMatches Search.collectMatches tableValues map fst snd].
  - now split.
  - inversion VT as [|kv t VM VRest]; subst. simpl in VM.
    destruct (Js.includes lq keyword).
    + set (a := (readArray h results ++ readArray h mock)%list).
      pose proof (newArray_extends a h) as E.
      pose proof (readArray_new a h) as R.
      destruct (newArray a h) as [results' h'] eqn:NA; simpl in E, R.
      assert (VA' : validArray h' results').
      { split.
        - injection NA as <- <-. simpl. rewrite length_app. simpl. lia.
        - rewrite R. apply (validRefs_extends h); [exact E|].
          apply Forall_app. split; [apply VA | apply VM]. }
      destruct (IH results' h' (validTable_extends _ _ _ E VRest) VA')
        as [V' D'].
      split; [exact V'|].
      rewrite D', R, (tableValues_extends h h' rest E VRest).
      f_equal. unfold a.
      rewrite (deref_extends h h' _ E)
        by (apply Forall_app; split; [apply VA | apply VM]).
      apply deref_app.
    + apply (IH results h VRest VA).
Qed.

Lemma nth_error_snoc {A : Type} (xs : list A) (x : A) :
  nth_error (xs ++ [x]) (length xs) = Some x.
Proof. rewrite nth_error_app2 by lia. now rewrite Nat.sub_diag. Qed.


Lemma genericArray_reads query encoded h :
  Js.encodeURIComponent query = Some encoded ->
  let out := genericArray query h in
  exists a,
    fst out = Returned a /\
    validArray (snd out) a /\
    deref (snd out) (readArray (snd out) a) =
      [Search.genericFirst query encoded; Search.genericSecond query] /\
    objects (snd out) =
      (objects h ++ [Search.genericFirst query encoded; Search.genericSecond query])%list.
Proof.
  intros E. unfold genericArray. rewrite E.
  cbn [newObject newArray fst snd objects arrays].
  set (o1 := length (objects h)).
  set (o2 := length (objects h ++ [Search.genericFirst query encoded])).
  set (h2 := {| objects := _; arrays := _ |}).
  exists (length (arrays h)). split; [reflexivity|].
  assert (R : readArray h2 (length (arrays h)) = [o1; o2]).
  { unfold readArray, h2; cbn [arrays]. rewrite app_nth2 by lia.
    now rewrite Nat.sub_diag. }
  assert (O1 : readObject h2 o1 = Some (Search.genericFirst query encoded)).
  { unfold readObject, h2, o1; cbn [objects].
    rewrite nth_error_app1 by (rewrite length_app; simpl; lia).
    apply nth_error_snoc. }
  assert (O2 : readObject h2 o2 = Some (Search.genericSecond query)).
  { unfold readObject, h2, o2; cbn [objects]. apply nth_error_snoc. }
  split; [|split].
  - split.
    + unfold h2; cbn [arrays]. rewrite length_app. simpl. lia.
    + rewrite R. unfold validRefs, h2, o1, o2; cbn [objects].
      repeat constructor; rewrite !length_app; simpl; lia.
  - rewrite R. cbn [deref]. now rewrite O1, O2.
  - unfold h2; cbn [objects]. now rewrite <- app_assoc.
Qed.

Lemma collectMatches_concat lq (table : list (string * list Search.SearchResult)) :
  forall acc,
    Search.collectMatches lq table acc =
    (acc ++ concat (map snd (Matching.matching lq table)))%list.
Proof.
  induction table as [|[keyword mock] rest IH]; intros acc; simpl.
  - now rewrite app_nil_r.
  - rewrite IH. destruct (Js.includes lq keyword); simpl.
    + now rewrite app_assoc.
    + reflexivity.
Qed.

Lemma collectMatches_objects lq (table : Table) :
  forall results h,
    objects (snd (collectMatches lq table results h)) = objects h.
Proof.
  induction table as [|[keyword mock] rest IH]; intros results h; simpl.
  - reflexivity.
  - destruct (Js.includes lq keyword); [|apply IH].
    now rewrite IH.
Qed.

Lemma validRefs_same_objects h h' refs :
  objects h' = objects h -> validRefs h' refs -> validRefs h refs.
Proof. unfold validRefs. now intros ->. Qed.

(** What [gatherResults] leaves on a store whose table is well formed:
    with some result selected, or none and a query that can be
    encoded, a valid array that reads as the value model says; with
    none selected and a query that cannot be encoded, the error, and
    no new object. *)
Lemma gatherResults_reads table query h :
  validTable h table ->
  let g := gatherResults table query h in
  let found := Matching.found query (tableValues h table) in
  match found, Js.encodeURIComponent query with
  | [], None =>
      fst g = Threw uriMalformed /\ objects (snd g) = objects h
  | [], Some encoded =>
      exists a, fst g = Returned a /\ validArray (snd g) a /\
        deref (snd g) (readArray (snd g) a) =
          [Search.genericFirst query encoded; Search.genericSecond query] /\
        objects (snd g) =
          (objects h ++ [Search.genericFirst query encoded;
                         Search.genericSecond query])%list
  | _, _ =>
      exists a, fst g = Returned a /\ validArray (snd g) a /\
        deref (snd g) (readArray (snd g) a) = found /\
        objects (snd g) = objects h /\
        validRefs h (readArray (snd g) a)
  end.
Proof.
  intros VT. unfold gatherResults, Matching.found, Matching.foundWith.
  pose proof (newArray_extends [] h) as E0.
  pose proof (readArray_new [] h) as R0.
  destruct (newArray [] h) as [results0 h0] eqn:NA; simpl in E0, R0.
  assert (O0 : objects h0 = objects h) by (injection NA as <- <-; reflexivity).
  assert (VA0 : validArray h0 results0).
  { split.
    - injection NA as <- <-. simpl. rewrite length_app. simpl. lia.
    - rewrite R0. constructor. }
  destruct (collectMatches_refines (Js.toLowerCase query) table results0 h0
              (validTable_extends _ _ _ E0 VT) VA0) as [V1 D1].
  pose proof (collectMatches_objects (Js.toLowerCase query) table results0 h0) as O1.
  rewrite R0, (tableValues_extends h h0 table E0 VT) in D1. simpl in D1.
  rewrite collectMatches_concat in D1. simpl app in D1.
  destruct (collectMatches _ table results0 h0) as [results1 h1].
  simpl in V1, D1, O1. cbv zeta.
  pose proof (deref_length h1 _ (proj2 V1)) as Len. rewrite D1 in Len.
  destruct (concat _) as [|r rs] eqn:F.
  - simpl in Len. rewrite <- Len. cbn [Nat.eqb].
    destruct (Js.encodeURIComponent query) as [encoded|] eqn:Enc.
    + destruct (genericArray_reads query encoded h1 Enc) as (a & Ga & VG & DG & OG).
      exists a. rewrite OG, O1, O0. repeat split; try assumption; apply VG.
    + unfold genericArray. rewrite Enc. cbn [fst snd].
      split; [reflexivity | congruence].
  - simpl in Len. rewrite <- Len. cbn [Nat.eqb fst snd].
    assert (Done : exists a, Returned results1 = Returned a /\ validArray h1 a /\
              deref h1 (readArray h1 a) = r :: rs /\ objects h1 = objects h /\
              validRefs h (readArray h1 a)).
    { exists results1. repeat split; try apply V1; try exact D1; try congruence.
      apply (validRefs_same_objects h h1); [congruence | apply V1]. }
    destruct (Js.encodeURIComponent query); exact Done.
Qed.

(** On a store whose table is well formed, the store model and the
    value model agree: both throw the same error, or both return, and
    then the array returned reads back as the results of the value
    model, and the counts agree. *)
Lemma searchWeb_refines (table : Table) (query : string) (h : Heap) :
  validTable h table ->
  let out := searchWeb table query h in
  match fst out, Search.searchWebIn (tableValues h table) query with
  | Returned r, Returned v =>
      deref (snd out) (readArray (snd out) (resultsRef r)) = Search.results v /\
      totalResults r = Search.totalResults v /\
      validArray (snd out) (resultsRef r)
  | Threw e, Threw e' => e = e'
  | _, _ => False
  end.
Proof.
  intros VT out.
  pose proof (gatherResults_reads table query h VT) as G. cbv zeta in G.
  assert (V : Search.searchWebIn (tableValues h table) query =
              match Matching.found query (tableValues h table) with
              | [] => match Js.encodeURIComponent query with
                      | None => Threw uriMalformed
                      | Some encoded =>
                          Returned {| Search.results :=
                                        [Search.genericFirst query encoded;
                                         Search.genericSecond query];
                                      Search.totalResults := 2 |}
                      end
              | found => Returned {| Search.results := Js.slice0 10 found;
                                     Search.totalResults := length found |}
              end).
  { unfold Search.searchWebIn, Search.searchWebWith, Matching.found,
      Matching.foundWith, Search.genericResults.
    rewrite collectMatches_concat. simpl app.
    destruct (concat _) as [|r rs]; [|reflexivity].
    cbn [length Nat.eqb].
    destruct (Js.encodeURIComponent query); reflexivity. }
  rewrite V.
  assert (Sliced : forall a,
            fst (gatherResults table query h) = Returned a ->
            validArray (snd (gatherResults table query h)) a ->
            exists r, fst out = Returned r /\
              deref (snd out) (readArray (snd out) (resultsRef r)) =
                Js.slice0 10 (deref (snd (gatherResults table query h))
                                (readArray (snd (gatherResults table query h)) a)) /\
              totalResults r =
                length (deref (snd (gatherResults table query h))
                          (readArray (snd (gatherResults table query h)) a)) /\
              validArray (snd out) (resultsRef r)).
  { intros a Ga [La Va].
    destruct (fst out) as [r|e] eqn:O.
    - exists r. split; [reflexivity|].
      destruct (searchWeb_returned table query h r O)
        as (results & Gr & Ref & Read & Tot & Len & Obj & Ext).
      fold out in Ref, Read, Tot, Len, Obj, Ext.
      rewrite Ga in Gr. injection Gr as <-.
      split; [|split].
      + rewrite Read. unfold Js.slice0.
        rewrite (deref_extends _ _ _ Ext) by (apply validRefs_firstn; exact Va).
        now apply deref_firstn.
      + rewrite Tot. symmetry. now apply deref_length.
      + split; [lia|]. rewrite Read.
        apply (validRefs_extends _ _ _ Ext). now apply validRefs_firstn.
    - exfalso. unfold out, searchWeb in O.
      destruct (gatherResults table query h) as [[a'|e'] h2]; cbn [fst] in Ga;
        [|discriminate].
      destruct (newArray _ h2); discriminate. }
  destruct (Matching.found query (tableValues h table)) as [|r0 rs0].
  - destruct (Js.encodeURIComponent query) as [encoded|].
    + destruct G as (a & Ga & Va & Da & _).
      destruct (Sliced a Ga Va) as (r & O & D & T & VA).
      rewrite O. cbn [Search.results Search.totalResults].
      rewrite D, T, Da. split; [reflexivity | split; [reflexivity | exact VA]].
    + destruct G as [Gt _]. unfold out, searchWeb.
      destruct (gatherResults table query h) as [[a|e] h2]; cbn [fst] in *;
        [discriminate|].
      now injection Gt as ->.
  - assert (G' : exists a, fst (gatherResults table query h) = Returned a /\
              validArray (snd (gatherResults table query h)) a /\
              deref (snd (gatherResults table query h))
                (readArray (snd (gatherResults table query h)) a) = r0 :: rs0).
    { destruct (Js.encodeURIComponent query);
        destruct G as (a & Ga & Va & Da & _); now exists a. }
    destruct G' as (a & Ga & Va & Da).
    destruct (Sliced a Ga Va) as (r & O & D & T & VA).
    rewrite O. cbn [Search.results Search.totalResults].
    rewrite D, T, Da. split; [reflexivity | split; [reflexivity | exact VA]].
Qed.

Lemma moduleTable_valid : validTable moduleHeap moduleTable.
Proof.
  repeat constructor; simpl; lia.
Qed.

Lemma moduleTable_values :
  tableValues moduleHeap moduleTable = Search.mockSearchResults.
Proof. reflexivity. Qed.

End StoreFacts.


(* ================================================================== *)
(** ** Retrieval: the values *)

Section SearchFacts.
Import Exn Search.

(** The four ways the loop over the mock table can end, whatever
    function lowers the query. *)
Lemma searchWeb_cases (lower : string -> string) (query : string) :
  let q := lower query in
  searchWebWith lower mockSearchResults query =
  match Js.includes q "climate change", Js.includes q "artificial intelligence" with
  | false, false =>
      match Js.encodeURIComponent query with
      | None => Threw uriMalformed
      | Some encoded =>
          Returned {| results := [genericFirst query encoded; genericSecond query];
                      totalResults := 2 |}
      end
  | true, false =>
      Returned {| results := nth 0 (map snd mockSearchResults) [];
                  totalResults := 3 |}
  | false, true =>
      Returned {| results := nth 1 (map snd mockSearchResults) [];
                  totalResults := 2 |}
  | true, true =>
      Returned {| results := (nth 0 (map snd mockSearchResults) []
                              ++ nth 1 (map snd mockSearchResults) [])%list;
                  totalResults := 5 |}
  end.
Proof.
  unfold searchWebWith, mockSearchResults, genericResults.
  cbn [collectMatches].
  destruct (Js.includes (lower query) "climate change");
    destruct (Js.includes (lower query) "artificial intelligence");
    try reflexivity.
  cbn [app length Nat.eqb].
  destruct (Js.encodeURIComponent query); reflexivity.
Qed.




End SearchFacts.


(* ================================================================== *)
(** ** The cached client *)

Section ClientFacts.
Import Exn OpenRouter Process.

Lemma chat_keeps_client backend self msgs w :
  openRouterClient (snd (chat backend self msgs w)) = openRouterClient w.
Proof. unfold chat. destruct (chatTry _ _); reflexivity. Qed.

Lemma synthesize_keeps_client backend self q rs w :
  openRouterClient (snd (synthesizeSearchResults backend self q rs w))
  = openRouterClient w.
Proof.
  unfold synthesizeSearchResults.
  pose proof (chat_keeps_client backend self (synthesisMessages q rs) w) as K.
  destruct (chat _ _ _ _) as [[r|e] w1]; exact K.
Qed.

Lemma synthesizeValues_keeps_client backend self q rs w :
  openRouterClient (snd (synthesizeValues backend self q rs w))
  = openRouterClient w.
Proof.
  unfold synthesizeValues.
  destruct (contextOf rs) as [context|e]; [|reflexivity].
  destruct (Json.toStringJ q) as [question|e]; [|reflexivity].
  match goal with |- context [chat ?b ?s ?m ?w] =>
    pose proof (chat_keeps_client b s m w) as K;
    destruct (chat b s m w) as [[r|e] w1] end; exact K.
Qed.

Lemma get_cached (w : Server) (c : OpenRouterClient) :
  openRouterClient w = Some c -> getOpenRouterClient w = (Returned c, w).
Proof. intros H. unfold getOpenRouterClient. now rewrite H. Qed.

Lemma get_returns_cached (w w1 : Server) (c : OpenRouterClient) :
  getOpenRouterClient w = (Returned c, w1) -> openRouterClient w1 = Some c.
Proof.
  unfold getOpenRouterClient.
  destruct (openRouterClient w) as [c0|] eqn:C.
  - intros H; injection H as <- <-. exact C.
  - destruct (OPENROUTER_API_KEY w) as [key|]; [|discriminate].
    destruct (negb (Js.truthy key)); [discriminate|].
    simpl. intros H; injection H as <- <-. reflexivity.
Qed.

Lemma post_keeps_cached backend request w c :
  openRouterClient w = Some c ->
  openRouterClient (snd (Route.POST backend request w)) = Some c.
Proof.
  intros C. unfold Route.POST, Route.postTry.
  destruct request as [e|body]; [exact C|].
  destruct body; try exact C;
    (destruct (Json.field _ "query") as [query|]; [|exact C];
     destruct (Json.field _ "searchResults") as [results|]; [|exact C];
     destruct (negb _ || negb _); [exact C|];
     rewrite (get_cached w c C);
     pose proof (synthesizeValues_keeps_client backend c query results w) as K;
     destruct (synthesizeValues backend c query results w) as [[a|e] w2];
     simpl in *; congruence).
Qed.

Lemma step_keeps_cached w w' c :
  step w w' -> openRouterClient w = Some c -> openRouterClient w' = Some c.
Proof.
  intros S C. destruct S as [v w|w|backend request w].
  - exact C.
  - now rewrite (get_cached w c C).
  - now apply post_keeps_cached.
Qed.

Lemma steps_keep_cached w w' c :
  steps w w' -> openRouterClient w = Some c -> openRouterClient w' = Some c.
Proof.
  intros S C. induction S as [w|w1 w2 w3 S12 IH S23]; [exact C|].
  eapply step_keeps_cached; [exact S23 | now apply IH].
Qed.

(** C10 with "unset" alone does not hold: with the variable set to the
    empty string the call throws although the variable is not unset. *)
Lemma empty_key_throws_though_set :
  let w := startServer (Some EmptyString) None in
  openRouterClient w = None /\
  OPENROUTER_API_KEY w <> None /\
  fst (getOpenRouterClient w) = Threw (ErrorObj "OpenRouter API key not configured").
Proof. repeat split. discriminate. Qed.

(** C10, amended.  [getOpenRouterClient] throws, and then what it
    throws is the error 'OpenRouter API key not configured', exactly
    when no client has been constructed yet and the variable
    OPENROUTER_API_KEY is unset or empty; a failed call leaves the
    process as it was.  Once a call has returned a client, every later
    call returns that same client, with the key it was constructed
    with, whatever happens to the variable and whatever requests are
    handled in between. *)
Theorem getOpenRouterClient_throws_and_caches (w : Server) :
  ((exists e, fst (getOpenRouterClient w) = Threw e) <->
   (openRouterClient w = None /\
    (OPENROUTER_API_KEY w = None \/ OPENROUTER_API_KEY w = Some EmptyString))) /\
  (forall e, fst (getOpenRouterClient w) = Threw e ->
     e = ErrorObj "OpenRouter API key not configured" /\
     snd (getOpenRouterClient w) = w) /\
  (forall c w1, getOpenRouterClient w = (Returned c, w1) ->
     (openRouterClient w = None -> OPENROUTER_API_KEY w = Some (apiKey c)) /\
     (forall w2, steps w1 w2 -> getOpenRouterClient w2 = (Returned c, w2))).
Proof.
  split; [|split].
  - unfold getOpenRouterClient. split.
    + intros [e H].
      destruct (openRouterClient w) as [c|]; [discriminate|].
      split; [reflexivity|].
      destruct (OPENROUTER_API_KEY w) as [[|ch key]|]; auto.
      discriminate.
    + intros [-> [-> | ->]]; eexists; reflexivity.
  - unfold getOpenRouterClient. intros e.
    destruct (openRouterClient w) as [c|]; [discriminate|].
    destruct (OPENROUTER_API_KEY w) as [[|ch key]|]; simpl.
    + intros H; injection H as <-. now split.
    + discriminate.
    + intros H; injection H as <-. now split.
  - intros c w1 G. split.
    + intros N. unfold getOpenRouterClient in G. rewrite N in G.
      destruct (OPENROUTER_API_KEY w) as [[|ch key]|]; try discriminate.
      simpl in G. injection G as <- _. reflexivity.
    + intros w2 S. apply get_cached.
      apply (steps_keep_cached w1 w2 c S), (get_returns_cached w w1 c G).
Qed.

Lemma getOpenRouterClient_throws_and_caches_witness :
  let w := startServer (Some "sk-or-v1-first") None in
  let c := {| ident := 0; apiKey := "sk-or-v1-first" |} in
  let w1 := snd (getOpenRouterClient w) in
  let w2 := snd (getOpenRouterClient (setEnvKey None w1)) in
  getOpenRouterClient w = (Returned c, w1) /\
  OPENROUTER_API_KEY w2 = None /\
  getOpenRouterClient w2 = (Returned c, w2).
Proof.
  intros w c w1 w2.
  split; [reflexivity | split; [reflexivity|]].
  destruct (getOpenRouterClient_throws_and_caches w) as (_ & _ & Later).
  destruct (Later c w1 eq_refl) as [_ Same].
  apply Same.
  apply (steps_more w1 (setEnvKey None w1) w2).
  - apply (steps_more w1 w1 (setEnvKey None w1)).
    + apply steps_none.
    + apply step_env.
  - apply step_get.
Defined.

End ClientFacts.

(* ================================================================== *)
(** ** The synthesize endpoint *)

Section RouteFacts.
Import Exn Json OpenRouter Route.

(** On the results [handleSearch] sends, the method on unchecked
    arguments is the method on typed ones. *)
Lemma entryOf_typed r index :
  entryOf (ofResult r) index = Returned (contextEntry r index).
Proof. reflexivity. Qed.

Lemma entriesFrom_typed rs :
  forall start,
    entriesFrom start (map ofResult rs) = Returned (Js.mapFrom contextEntry start rs).
Proof.
  induction rs as [|r rs IH]; intros start; [reflexivity|].
  cbn [map entriesFrom Js.mapFrom]. rewrite entryOf_typed, IH. reflexivity.
Qed.

Lemma synthesizeValues_typed backend self q rs w :
  synthesizeValues backend self (JString q) (JArray (map ofResult rs)) w =
  synthesizeSearchResults backend self q rs w.
Proof.
  unfold synthesizeValues, contextOf. rewrite entriesFrom_typed.
  reflexivity.
Qed.

(** A request that passes validation is handled by asking for the
    client and, with it, for the synthesis. *)
Lemma post_valid backend q rs w :
  Js.truthy q = true ->
  POST backend (Parsed (Some q) (Some rs)) w =
  match getOpenRouterClient w with
  | (Threw e, w1) => (postCatch e, consoleError "Synthesis API error:" w1)
  | (Returned client, w1) =>
      match synthesizeSearchResults backend client q rs w1 with
      | (Threw e, w2) => (postCatch e, consoleError "Synthesis API error:" w2)
      | (Returned answer, w2) =>
          ({| status := 200; json := AnswerJson answer |}, w2)
      end
  end.
Proof.
  intros T. unfold POST, postTry, Parsed.
  cbn [option_map member app field lookup String.eqb Ascii.eqb Bool.eqb].
  cbn [truthy]. rewrite T. cbn [negb orb].
  destruct (getOpenRouterClient w) as [[client|e] w1]; [|reflexivity].
  rewrite synthesizeValues_typed.
  destruct (synthesizeSearchResults backend client q rs w1) as [[a|e] w2];
    reflexivity.
Qed.

Lemma get_keeps_log w :
  fetchLog (snd (getOpenRouterClient w)) = fetchLog w.
Proof.
  unfold getOpenRouterClient.
  destruct (openRouterClient w); [reflexivity|].
  destruct (OPENROUTER_API_KEY w) as [key|]; [|reflexivity].
  destruct (negb (Js.truthy key)); reflexivity.
Qed.

Lemma chat_sends backend self msgs w :
  fetchLog (snd (chat backend self msgs w)) =
  (fetchLog w ++ [chatRequest self msgs w])%list.
Proof. unfold chat. destruct (chatTry _ _); reflexivity. Qed.

(** The method on unchecked arguments sends nothing when reading its
    arguments throws, and one synthesis request otherwise. *)
Lemma synthesizeValues_sends backend self q rs w :
  fetchLog (snd (synthesizeValues backend self q rs w)) = fetchLog w \/
  exists question context,
    fetchLog (snd (synthesizeValues backend self q rs w)) =
    (fetchLog w ++
     [chatRequest self
        [ {| role := system; content := systemPrompt |};
          {| role := user; content := userPrompt question context |} ] w])%list.
Proof.
  unfold synthesizeValues.
  destruct (contextOf rs) as [context|e]; [|now left].
  destruct (toStringJ q) as [question|e]; [|now left].
  right. exists question, context.
  match goal with |- context [chat ?b ?s ?m ?w] =>
    pose proof (chat_sends b s m w) as K;
    destruct (chat b s m w) as [[r|e] w1] end; exact K.
Qed.

(** What one call of the endpoint does before the synthesis: it
    answers 400 or throws and leaves the server as it was, or it asks
    for the client and, if there is one, calls the synthesis with the
    two values read from the body. *)
Lemma post_steps backend request w :
  (snd (postTry backend request w) = w) \/
  (exists query results,
     postTry backend request w =
     match getOpenRouterClient w with
     | (Threw e, w1) => (Threw e, w1)
     | (Returned client, w1) =>
         match synthesizeValues backend client query results w1 with
         | (Threw e, w2) => (Threw e, w2)
         | (Returned answer, w2) =>
             (Returned {| status := 200; json := AnswerJson answer |}, w2)
         end
     end).
Proof.
  unfold postTry.
  destruct request as [e|body]; [now left|].
  destruct body; try (now left);
    (destruct (field _ "query") as [query|]; [|now left];
     destruct (field _ "searchResults") as [results|]; [|now left];
     destruct (negb _ || negb _); [now left|];
     right; exists query, results; reflexivity).
Qed.

(** One call of the endpoint sends at most one request to the
    backend, whatever the request and the backend's behaviour. *)
Lemma post_sends_at_most_one backend request w :
  fetchLog (snd (POST backend request w)) = fetchLog w \/
  exists sent, fetchLog (snd (POST backend request w)) = (fetchLog w ++ [sent])%list.
Proof.
  assert (P : fetchLog (snd (postTry backend request w)) = fetchLog w \/
              exists sent, fetchLog (snd (postTry backend request w))
                           = (fetchLog w ++ [sent])%list).
  { destruct (post_steps backend request w) as [Same | (query & results & E)].
    - left. now rewrite Same.
    - rewrite E. pose proof (get_keeps_log w) as G.
      destruct (getOpenRouterClient w) as [[client|e] w1]; cbn [snd] in G;
        [|left; exact G].
      destruct (synthesizeValues_sends backend client query results w1)
        as [Same | (question & context & Sent)].
      + left. destruct (synthesizeValues _ _ _ _ _) as [[a|e] w2];
          cbn [snd] in *; congruence.
      + right. eexists.
        destruct (synthesizeValues _ _ _ _ _) as [[a|e] w2];
          cbn [snd] in *; rewrite Sent, G; reflexivity. }
  unfold POST. destruct (postTry backend request w) as [[r|e] w1]; exact P.
Qed.

(** What the synthesis yields when the backend answers with a status
    outside 200..299. *)
Lemma synthesize_rejected backend client q rs w st body :
  backend (chatRequest client (synthesisMessages q rs) w)
    = FetchResolves {| OpenRouter.status := st; OpenRouter.body := body |} ->
  ok st = false ->
  fst (synthesizeSearchResults backend client q rs w) =
  match errorText body with
  | Threw e => Threw e
  | Returned text =>
      Threw (ErrorObj ("OpenRouter API error: " ++ Js.numberToString st ++ " - "
                       ++ match text with
                          | Some message => message
                          | None => "Unknown error"
                          end))
  end.
Proof.
  intros B NotOk. unfold synthesizeSearchResults, chat, chatTry.
  rewrite B. cbn [OpenRouter.status OpenRouter.body]. rewrite NotOk.
  cbn [negb]. destruct (errorText body) as [text|e]; reflexivity.
Qed.


Lemma postCatch_500 e : Route.status (postCatch e) = 500.
Proof.
  destruct e as [m|]; simpl; [destruct (Js.includes m _)|]; reflexivity.
Qed.

Lemma postCatch_error e : exists m, json (postCatch e) = ErrorJson m.
Proof.
  destruct e as [m|]; simpl; [destruct (Js.includes m _)|]; eexists; reflexivity.
Qed.




(** C5.  The empty question is rejected before anything else
    happens: the endpoint answers status 400 and leaves the server
    untouched, no client constructed and nothing sent to the backend;
    the search handler returns at once, with no call to the retrieval
    step and none to the endpoint. *)
Theorem empty_question_rejected :
  (forall backend results w,
     POST backend (Parsed (Some EmptyString) results) w =
     ({| status := 400;
         json := ErrorJson "Query and search results are required" |}, w)) /\
  (forall searchWeb link backend b srv,
     SearchInterface.handleSearch searchWeb link backend
       (SearchInterface.setQuery EmptyString b) srv
     = (SearchInterface.setQuery EmptyString b, srv)).
Proof.
  split.
  - intros backend results w. destruct results; reflexivity.
  - reflexivity.
Qed.




End RouteFacts.


(* ================================================================== *)
(** ** The search handler *)

Section HandlerFacts.
Import Exn SearchInterface.

(** C4 does not hold: when the search call throws, the handler shows
    the search error as the error of the query and the endpoint is
    never called, so nothing is generated. *)
Lemma retrieval_failure_ends_the_query :
  let answering : OpenRouter.Backend := fun _ =>
    OpenRouter.FetchResolves
      {| OpenRouter.status := 200;
         OpenRouter.body := OpenRouter.JsonData None (Some ["An answer."]) None |} in
  let srv := OpenRouter.startServer (Some "sk-or-v1-test") None in
  let b := setQuery "climate change" initialBrowser in
  let out := handleSearch Scenario.searchDown Reaches answering b srv in
  error (ui (fst out)) = Some "Search API error: 503" /\
  response (ui (fst out)) = None /\
  calls (fst out) = [CallSearchWeb "climate change"] /\
  OpenRouter.fetchLog (snd out) = [] /\
  snd out = srv.
Proof. cbv zeta. repeat split. Qed.

(** The same with the [searchWeb] of the repository: on a query that
    is one unpaired surrogate it throws [URIError], and the handler
    shows that as the error of the query and calls nothing else. *)
Lemma lone_surrogate_search_ends_the_query :
  let answering : OpenRouter.Backend := fun _ =>
    OpenRouter.FetchResolves
      {| OpenRouter.status := 200;
         OpenRouter.body := OpenRouter.JsonData None (Some ["An answer."]) None |} in
  let srv := OpenRouter.startServer (Some "sk-or-v1-test") None in
  let b := setQuery Scenario.loneSurrogate initialBrowser in
  let out := handleSearch mockRetrieval Reaches answering b srv in
  error (ui (fst out)) = Some "URI malformed" /\
  response (ui (fst out)) = None /\
  calls (fst out) = [CallSearchWeb Scenario.loneSurrogate] /\
  snd out = srv.
Proof. cbv zeta. repeat split. Qed.

(** C4, amended.  When the search call throws, the handler catches
    the error in its one [try]/[catch]: it does not rethrow, it shows
    the error's message (or 'An error occurred' for a value that is
    no Error) as the error of the query, sets no response, and does
    not call the synthesize endpoint, so the server is left as it
    was. *)
Theorem retrieval_failure_is_shown (searchWeb : Retrieval) link backend b srv e :
  Js.truthy (Js.trim (query (ui b))) = true ->
  searchWeb (query (ui b)) = Threw e ->
  handleSearch searchWeb link backend b srv =
    ({| ui := {| query := query (ui b);
                 loading := false;
                 response := None;
                 error := Some (match e with
                                | ErrorObj message => message
                                | OtherValue => "An error occurred"
                                end) |};
        calls := (calls b ++ [CallSearchWeb (query (ui b))])%list |},
     srv).
Proof.
  intros T F.
  unfold handleSearch, searchTry. rewrite T, F. reflexivity.
Qed.

Lemma retrieval_failure_is_shown_witness :
  let answering : OpenRouter.Backend := fun _ =>
    OpenRouter.FetchResolves
      {| OpenRouter.status := 200;
         OpenRouter.body := OpenRouter.JsonData None (Some ["An answer."]) None |} in
  let srv := OpenRouter.startServer (Some "sk-or-v1-test") None in
  let b := setQuery "climate change" initialBrowser in
  handleSearch Scenario.searchDown Reaches answering b srv =
    ({| ui := {| query := "climate change";
                 loading := false;
                 response := None;
                 error := Some "Search API error: 503" |};
        calls := [CallSearchWeb "climate change"] |},
     srv).
Proof.
  intros answering srv b.
  apply (retrieval_failure_is_shown Scenario.searchDown Reaches answering b srv
           (ErrorObj "Search API error: 503")); reflexivity.
Defined.

(** One run of the handler makes the server send at most one request
    to the backend. *)
Lemma handleSearch_sends_at_most_one (searchWeb : Retrieval) link backend b srv :
  let srv' := snd (handleSearch searchWeb link backend b srv) in
  OpenRouter.fetchLog srv' = OpenRouter.fetchLog srv \/
  exists sent,
    OpenRouter.fetchLog srv' = (OpenRouter.fetchLog srv ++ [sent])%list.
Proof.
  unfold handleSearch, searchTry.
  destruct (negb (Js.truthy (Js.trim (query (ui b))))); [now left|].
  destruct (searchWeb (query (ui b))) as [found|e]; [|now left].
  destruct link as [|e]; [|now left].
  pose proof (post_sends_at_most_one backend
                (Route.Parsed (Some (query (ui b))) (Some (Search.results found)))
                srv) as P.
  destruct (Route.POST _ _ _) as [apiResponse srv1]. cbn [snd] in P.
  destruct (negb (OpenRouter.ok (Route.status apiResponse))); exact P.
Qed.

End HandlerFacts.

(* ================================================================== *)
(** ** The end-to-end scenario *)

Section ScenarioFacts.
Import Exn Search.

(** C8.  The question "What is artificial intelligence?" retrieves
    exactly the IBM result and then the Stanford HAI result; the
    citation table pairs 1 with ibm.com and 2 with stanford.edu; the
    context block holds the first snippet under [1] and then the
    second under [2]; and a run of the handler makes the server send
    to the backend one request whose user message holds, between the
    question and the closing instruction, that very block. *)
Theorem artificial_intelligence_scenario :
  let question := "What is artificial intelligence?" in
  let block :=
    "[1] What is Artificial Intelligence (AI)? | IBM" ++ Js.nl
    ++ "URL: https://www.ibm.com/topics/artificial-intelligence" ++ Js.nl
    ++ "Content: Artificial intelligence leverages computers and machines to mimic the problem-solving and decision-making capabilities of the human mind." ++ Js.nl
    ++ Js.nl
    ++ "[2] Artificial Intelligence | Stanford HAI" ++ Js.nl
    ++ "URL: https://hai.stanford.edu/what-ai" ++ Js.nl
    ++ "Content: AI is a broad field of computer science concerned with building smart machines capable of performing tasks that typically require human intelligence." ++ Js.nl in
  searchWeb question =
    Returned {| results := [Scenario.ibmResult; Scenario.stanfordResult];
                totalResults := 2 |} /\
  map title [Scenario.ibmResult; Scenario.stanfordResult] =
    ["What is Artificial Intelligence (AI)? | IBM";
     "Artificial Intelligence | Stanford HAI"] /\
  map (fun c => (SearchInterface.number c, SearchInterface.domain c))
      (SearchInterface.createCitations [Scenario.ibmResult; Scenario.stanfordResult])
    = [(1, "ibm.com"); (2, "stanford.edu")] /\
  OpenRouter.searchContext [Scenario.ibmResult; Scenario.stanfordResult] = block /\
  (forall backend b,
     let out := SearchInterface.handleSearch SearchInterface.mockRetrieval
                  SearchInterface.Reaches backend
                  (SearchInterface.setQuery question b)
                  (OpenRouter.startServer (Some "sk-or-v1-test") None) in
     SearchInterface.calls (fst out) =
       (SearchInterface.calls b ++
        [SearchInterface.CallSearchWeb question;
         SearchInterface.CallSynthesize question
           [Scenario.ibmResult; Scenario.stanfordResult]])%list /\
     map OpenRouter.messages (OpenRouter.fetchLog (snd out))
     = [ [ {| OpenRouter.role := OpenRouter.system;
              OpenRouter.content := OpenRouter.systemPrompt |};
           {| OpenRouter.role := OpenRouter.user;
              OpenRouter.content :=
                "Question: What is artificial intelligence?" ++ Js.nl
                ++ Js.nl
                ++ "Search Results:" ++ Js.nl
                ++ block ++ Js.nl
                ++ Js.nl
                ++ "Please provide a comprehensive answer based on these search results. Include relevant citations using the format [1], [2], etc." |} ] ]).
Proof.
  intros question block.
  split; [reflexivity|]. split; [reflexivity|]. split; [reflexivity|].
  split; [reflexivity|].
  intros backend b out. unfold out.
  unfold SearchInterface.handleSearch, SearchInterface.setQuery.
  cbn [SearchInterface.query SearchInterface.ui].
  change (negb (Js.truthy (Js.trim question))) with false. cbv iota.
  unfold SearchInterface.searchTry, SearchInterface.mockRetrieval.
  change (searchWeb question)
    with (Returned {| results := [Scenario.ibmResult; Scenario.stanfordResult];
                      totalResults := 2 |}).
  cbv iota. cbn [results].
  rewrite (post_valid backend question
             [Scenario.ibmResult; Scenario.stanfordResult] _ eq_refl).
  unfold OpenRouter.getOpenRouterClient, OpenRouter.startServer.
  cbn [OpenRouter.openRouterClient OpenRouter.OPENROUTER_API_KEY
       Js.truthy negb OpenRouter.construct].
  set (client := OpenRouter.mkClient _ _).
  set (srv1 := OpenRouter.mkServer _ _ _ _ _ _).
  pose proof (synthesize_sends backend client question
                [Scenario.ibmResult; Scenario.stanfordResult] srv1) as Sent.
  assert (Messages :
    OpenRouter.synthesisMessages question
      [Scenario.ibmResult; Scenario.stanfordResult]
    = [ {| OpenRouter.role := OpenRouter.system;
           OpenRouter.content := OpenRouter.systemPrompt |};
        {| OpenRouter.role := OpenRouter.user;
           OpenRouter.content :=
             "Question: What is artificial intelligence?" ++ Js.nl
             ++ Js.nl
             ++ "Search Results:" ++ Js.nl
             ++ block ++ Js.nl
             ++ Js.nl
             ++ "Please provide a comprehensive answer based on these search results. Include relevant citations using the format [1], [2], etc." |} ])
    by (vm_compute; reflexivity).
  rewrite Messages in Sent.
  destruct (OpenRouter.synthesizeSearchResults backend client question
              [Scenario.ibmResult; Scenario.stanfordResult] srv1)
    as [[answer|e] srv2]; cbn [snd] in Sent.
  - cbn [Route.status].
    change (negb (OpenRouter.ok 200)) with false. cbv iota. cbn [fst snd].
    split; [reflexivity|]. now rewrite Sent.
  - rewrite postCatch_500.
    change (negb (OpenRouter.ok 500)) with true. cbv iota. cbn [fst snd].
    cbn [OpenRouter.consoleError OpenRouter.fetchLog SearchInterface.calls].
    split; [reflexivity|]. now rewrite Sent.
Qed.

End ScenarioFacts.


(* ================================================================== *)
(** ** More on retrieval *)

Section MoreSearchFacts.
Import Exn Search Matching.

Lemma searchWebWith_found lower table query :
  searchWebWith lower table query =
  match foundWith lower query table with
  | [] =>
      match Js.encodeURIComponent query with
      | None => Threw (ErrorObj "URI malformed")
      | Some encoded =>
          Returned {| results := [genericFirst query encoded; genericSecond query];
                      totalResults := 2 |}
      end
  | _ =>
      Returned {| results := firstn 10 (foundWith lower query table);
                  totalResults := length (foundWith lower query table) |}
  end.
Proof.
  unfold searchWebWith, foundWith, genericResults.
  rewrite collectMatches_concat. simpl app.
  destruct (concat _) as [|r rs]; [|reflexivity].
  cbn [length Nat.eqb].
  destruct (Js.encodeURIComponent query); reflexivity.
Qed.

(** X1.  Whatever the table and whatever function lowers the query:
    when some keyword of the table occurs in the lowered query, the
    results are the result lists of those keywords, one after the
    other in the order of the table (not in the order the keywords
    occur in the query), cut after ten, and [totalResults] is their
    number before the cut; when none occurs, the call returns the two
    generic results, or throws [URIError] if [encodeURIComponent]
    rejects the query. *)
Theorem searchWebIn_table_order (lower : string -> string) table query :
  searchWebWith lower table query =
  match foundWith lower query table with
  | [] =>
      match Js.encodeURIComponent query with
      | None => Threw (ErrorObj "URI malformed")
      | Some encoded =>
          Returned {| results := [genericFirst query encoded; genericSecond query];
                      totalResults := 2 |}
      end
  | _ =>
      Returned {| results := firstn 10 (foundWith lower query table);
                  totalResults := length (foundWith lower query table) |}
  end.
Proof.
  unfold searchWebWith, foundWith, genericResults.
  rewrite collectMatches_concat. simpl app.
  destruct (concat (map snd (matching (lower query) table))) as [|r rs];
    [|reflexivity].
  cbn [length Nat.eqb].
  destruct (Js.encodeURIComponent query); reflexivity.
Qed.

(** X2.  Whatever the table and the lowering: a call that returns
    gives a list of [min 10 totalResults] entries, never empty,
    [totalResults] counting the results before the cut; a call that
    throws throws [URIError], on a query that selects nothing and
    holds an unpaired surrogate. *)
Theorem searchWebIn_counts (lower : string -> string) table query :
  match searchWebWith lower table query with
  | Returned response =>
      length (results response) = Nat.min 10 (totalResults response) /\
      1 <= totalResults response /\
      results response <> []
  | Threw e =>
      e = ErrorObj "URI malformed" /\
      foundWith lower query table = [] /\
      Js.hasLoneSurrogate query = true
  end.
Proof.
  rewrite searchWebWith_found.
  destruct (foundWith lower query table) as [|r rs].
  - unfold Js.encodeURIComponent.
    destruct (Js.hasLoneSurrogate query); cbn; repeat split; try lia;
      discriminate.
  - cbn [results totalResults]. rewrite length_firstn.
    simpl; repeat split; try lia; discriminate.
Qed.

(** X3.  With the mock table of the repository nothing is ever cut:
    whenever a call returns, [totalResults] is the length of the list
    returned, at most 5. *)
Theorem searchWeb_total_is_length (lower : string -> string) query response :
  searchWebWith lower mockSearchResults query = Returned response ->
  totalResults response = length (results response) /\
  length (results response) <= 5.
Proof.
  rewrite (searchWeb_cases lower query). cbv zeta.
  destruct (Js.includes _ "climate change");
    destruct (Js.includes _ "artificial intelligence");
    try (intros H; injection H as <-; simpl; lia).
  destruct (Js.encodeURIComponent query); [|discriminate].
  intros H; injection H as <-; simpl; lia.
Qed.

Lemma searchWeb_total_is_length_witness :
  exists response,
    searchWeb "Climate change and artificial intelligence" = Returned response /\
    totalResults response = 5 /\ length (results response) = 5.
Proof.
  eexists. split; [reflexivity|].
  destruct (searchWeb_total_is_length Js.toLowerCase
              "Climate change and artificial intelligence" _ eq_refl) as [T _].
  split; [reflexivity | now rewrite <- T].
Defined.

(** X4.  Matching ignores letter case, in the sense of whatever
    function lowers the query: two queries that are equal once
    lowered, and that select some result, get the same response. *)
Theorem searchWebIn_ignores_case (lower : string -> string) table q1 q2 :
  lower q1 = lower q2 ->
  foundWith lower q1 table <> [] ->
  searchWebWith lower table q1 = searchWebWith lower table q2 /\
  exists response, searchWebWith lower table q1 = Returned response.
Proof.
  intros Same Found.
  rewrite (searchWebWith_found lower table q1), (searchWebWith_found lower table q2).
  assert (F : foundWith lower q2 table = foundWith lower q1 table)
    by (unfold foundWith; now rewrite Same).
  rewrite F.
  destruct (foundWith lower q1 table) as [|r rs]; [now elim Found|].
  split; [reflexivity | eexists; reflexivity].
Qed.

Lemma searchWebIn_ignores_case_witness :
  searchWeb "CLIMATE Change today" = searchWeb "climate change TODAY".
Proof.
  apply (searchWebIn_ignores_case Js.toLowerCase mockSearchResults
           "CLIMATE Change today" "climate change TODAY").
  - reflexivity.
  - discriminate.
Defined.

End MoreSearchFacts.

(* ================================================================== *)
(** ** More on the store *)

Section MoreStoreFacts.
Import Exn SearchStore Serving.

(** X5.  On a store whose table is well formed: when the query selects
    some result, the call returns, creates no result object, and the
    array it returns refers to the stored objects of the table
    themselves, not to copies; when it selects none, the call either
    returns and has created exactly the two generic results, or throws
    and has created no object. *)
Theorem searchWeb_shares_stored_results table query h :
  validTable h table ->
  let out := searchWeb table query h in
  let found := Matching.found query (tableValues h table) in
  match fst out with
  | Returned response =>
      (found <> [] ->
       objects (snd out) = objects h /\
       Forall (fun ref => ref < length (objects h) /\
                          readObject (snd out) ref = readObject h ref)
              (readArray (snd out) (resultsRef response))) /\
      (found = [] ->
       exists encoded,
         Js.encodeURIComponent query = Some encoded /\
         objects (snd out) =
           (objects h ++ [Search.genericFirst query encoded;
                          Search.genericSecond query])%list)
  | Threw e =>
      found = [] /\ objects (snd out) = objects h
  end.
Proof.
  intros VT out found.
  pose proof (gatherResults_reads table query h VT) as G. cbv zeta in G.
  fold found in G.
  destruct (fst out) as [response|e] eqn:O.
  - destruct (searchWeb_returned table query h response O)
      as (results & Gr & _ & Read & _ & _ & Obj & _).
    fold out in Read, Obj.
    destruct found as [|r0 rs0].
    + split; [intros N; now elim N|]. intros _.
      destruct (Js.encodeURIComponent query) as [encoded|].
      * destruct G as (a & _ & _ & _ & OG). exists encoded.
        split; [reflexivity|]. now rewrite Obj.
      * destruct G as [Gt _]. rewrite Gt in Gr. discriminate.
    + split; [|discriminate]. intros _.
      assert (G' : exists a, fst (gatherResults table query h) = Returned a /\
                objects (snd (gatherResults table query h)) = objects h /\
                validRefs h (readArray (snd (gatherResults table query h)) a)).
      { destruct (Js.encodeURIComponent query);
          destruct G as (a & Ga & _ & _ & Oa & Va); now exists a. }
      destruct G' as (a & Ga & Oa & Va).
      rewrite Ga in Gr. injection Gr as <-.
      split; [congruence|].
      rewrite Read. apply validRefs_firstn with (n := 10) in Va.
      unfold Js.slice0. unfold validRefs in Va.
      eapply Forall_impl; [|exact Va].
      intros ref L. split; [exact L|].
      unfold readObject. now rewrite Obj, Oa.
  - assert (Gt : fst (gatherResults table query h) = Threw e /\
                 snd out = snd (gatherResults table query h)).
    { clear G. unfold out, searchWeb in *.
      destruct (gatherResults table query h) as [[a|e'] h2]; cbn [fst snd] in *.
      - destruct (newArray _ h2); discriminate.
      - split; [now injection O as -> | reflexivity]. }
    destruct Gt as [Gt Same]. rewrite Same.
    destruct found as [|r0 rs0].
    + destruct (Js.encodeURIComponent query) as [encoded|].
      * destruct G as (a & Ga & _). rewrite Ga in Gt. discriminate.
      * split; [reflexivity | apply G].
    + exfalso. destruct (Js.encodeURIComponent query);
        destruct G as (a & Ga & _); rewrite Ga in Gt; discriminate.
Qed.

Lemma searchWeb_shares_stored_results_witness :
  let out := searchWeb moduleTable "artificial intelligence" moduleHeap in
  objects (snd out) = objects moduleHeap /\
  option_map (fun r => readArray (snd out) (resultsRef r))
    (match fst out with Returned r => Some r | Threw _ => None end)
  = Some (readArray moduleHeap 1).
Proof.
  split; [|reflexivity].
  pose proof (searchWeb_shares_stored_results moduleTable
                "artificial intelligence" moduleHeap moduleTable_valid) as S.
  cbv zeta in S.
  change (fst (searchWeb moduleTable "artificial intelligence" moduleHeap))
    with (@Returned Response {| resultsRef := 4; totalResults := 2 |}) in S.
  destruct S as [Shared _]. apply Shared. discriminate.
Defined.

Lemma searchWeb_keeps_table table query h :
  validTable h table ->
  let out := searchWeb table query h in
  validTable (snd out) table /\
  tableValues (snd out) table = tableValues h table.
Proof.
  intros VT out.
  pose proof (searchWeb_extends table query h) as E. fold out in E.
  split; [now apply (validTable_extends h) | now apply tableValues_extends].
Qed.

Lemma serve_extends table queries :
  forall h, extends h (snd (serve table queries h)).
Proof.
  induction queries as [|q rest IH]; intros h; simpl.
  - apply extends_refl.
  - pose proof (searchWeb_extends table q h) as E.
    destruct (searchWeb table q h) as [r h1]; simpl in E.
    pose proof (IH h1) as E1.
    destruct (serve table rest h1) as [rs h2]; simpl in *.
    eapply extends_trans; eassumption.
Qed.

(** X6.  Calls do not interfere.  On a store whose table is well
    formed, after any sequence of calls each call's outcome reads, in
    the final store, as the value model gives it for its query alone:
    the same results, or the same error. *)
Theorem serve_reads_as_values table queries :
  forall h,
    validTable h table ->
    let out := serve table queries h in
    map (readOutcome (snd out)) (fst out)
    = map (fun q =>
             match Search.searchWebIn (tableValues h table) q with
             | Returned v => Returned (Search.results v)
             | Threw e => Threw e
             end)
          queries.
Proof.
  induction queries as [|q rest IH]; intros h VT; simpl; [reflexivity|].
  destruct (searchWeb_keeps_table table q h VT) as (VT1 & TV1).
  pose proof (searchWeb_refines table q h VT) as R. cbv zeta in R.
  destruct (searchWeb table q h) as [o h1]; cbn [fst snd] in VT1, TV1, R.
  specialize (IH h1 VT1). cbv zeta in IH.
  pose proof (serve_extends table rest h1) as E.
  destruct (serve table rest h1) as [rs h2]; cbn [fst snd] in IH, E.
  cbn [fst snd map]. rewrite IH, TV1. f_equal.
  destruct o as [r|e];
    destruct (Search.searchWebIn (tableValues h table) q) as [v|e'];
    try contradiction.
  - destruct R as (D & _ & VA). cbn [readOutcome].
    rewrite (readArray_extends h1 h2 _ E (proj1 VA)).
    rewrite (deref_extends h1 h2 _ E (proj2 VA)). now rewrite D.
  - cbn [readOutcome]. now rewrite R.
Qed.

Lemma serve_reads_as_values_witness :
  let queries := ["climate change"; Scenario.loneSurrogate; "climate change"] in
  let out := serve moduleTable queries moduleHeap in
  map (readOutcome (snd out)) (fst out)
  = map (fun q =>
           match Search.searchWeb q with
           | Returned v => Returned (Search.results v)
           | Threw e => Threw e
           end)
        queries.
Proof.
  apply (serve_reads_as_values moduleTable
           ["climate change"; Scenario.loneSurrogate; "climate change"] moduleHeap).
  exact moduleTable_valid.
Defined.

Lemma serve_refs_fresh table queries :
  forall h,
    Forall (fun r => length (arrays h) <= resultsRef r)
           (returned (fst (serve table queries h))).
Proof.
  induction queries as [|q rest IH]; intros h; simpl; [constructor|].
  pose proof (searchWeb_extends table q h) as E.
  pose proof (searchWeb_ref_fresh table q h) as Fr.
  destruct (searchWeb table q h) as [o h1]; cbn [fst snd] in Fr, E.
  specialize (IH h1).
  destruct (serve table rest h1) as [rs h2]; cbn [fst snd] in *.
  apply extends_arrays_le in E.
  assert (Rest : Forall (fun r => length (arrays h) <= resultsRef r) (returned rs)).
  { eapply Forall_impl; [|exact IH]. intros r' L. simpl in L. lia. }
  destruct o as [r|e]; cbn [returned]; [|exact Rest].
  constructor; [|exact Rest]. specialize (Fr r eq_refl). lia.
Qed.

(** X7.  Whatever the table and the store: in any sequence of calls no
    two calls return the same array, even for the same query. *)
Theorem serve_arrays_distinct table queries :
  forall h, NoDup (map resultsRef (returned (fst (serve table queries h)))).
Proof.
  induction queries as [|q rest IH]; intros h; simpl; [constructor|].
  pose proof (searchWeb_ref_fresh table q h) as Fr.
  destruct (searchWeb table q h) as [o h1]; cbn [fst snd] in Fr.
  pose proof (serve_refs_fresh table rest h1) as Later.
  specialize (IH h1).
  destruct (serve table rest h1) as [rs h2]; cbn [fst snd] in *.
  destruct o as [r|e]; cbn [returned map]; [|exact IH].
  constructor; [|exact IH].
  intros In_rs. apply in_map_iff in In_rs. destruct In_rs as (r' & Eq & In').
  rewrite Forall_forall in Later. specialize (Later r' In').
  specialize (Fr r eq_refl). lia.
Qed.

End MoreStoreFacts.


(* ================================================================== *)
(** ** More on the server: the client, the requests, the endpoint *)

Section MoreServerFacts.
Import Exn Json OpenRouter Route Process Requests.

Lemma get_threw (w : Server) (e : Thrown) :
  fst (getOpenRouterClient w) = Threw e ->
  snd (getOpenRouterClient w) = w /\ openRouterClient w = None.
Proof.
  unfold getOpenRouterClient.
  destruct (openRouterClient w) as [c|]; [discriminate|].
  destruct (OPENROUTER_API_KEY w) as [key|]; [|now split].
  destruct (negb (Js.truthy key)); [now split | discriminate].
Qed.

(** X8.  Asking for the client twice is asking once: the second call
    returns what the first returned (the same client, or the same
    error) and changes nothing more. *)
Theorem getOpenRouterClient_idempotent (w : Server) :
  getOpenRouterClient (snd (getOpenRouterClient w)) =
  (fst (getOpenRouterClient w), snd (getOpenRouterClient w)).
Proof.
  destruct (getOpenRouterClient w) as [[c|e] w1] eqn:G; cbn [fst snd].
  - apply get_cached. now apply (get_returns_cached w).
  - pose proof (get_threw w e) as Fail. rewrite G in Fail.
    destruct (Fail eq_refl) as [Same _].
    cbn [snd] in Same. subst w1. exact G.
Qed.

(** X9.  A failure is not cached.  After a call that threw, once the
    variable holds a non-empty key the next call constructs a client
    with that key. *)
Theorem getOpenRouterClient_recovers (w : Server) (e : Thrown) (key : string) :
  fst (getOpenRouterClient w) = Threw e ->
  Js.truthy key = true ->
  fst (getOpenRouterClient (setEnvKey (Some key) (snd (getOpenRouterClient w))))
  = Returned {| ident := constructed w; apiKey := key |}.
Proof.
  intros F T.
  destruct (get_threw w e F) as [-> NoClient].
  unfold getOpenRouterClient, setEnvKey; cbn [openRouterClient OPENROUTER_API_KEY].
  rewrite NoClient, T. reflexivity.
Qed.

Lemma getOpenRouterClient_recovers_witness :
  let w := startServer None None in
  fst (getOpenRouterClient w) = Threw (ErrorObj "OpenRouter API key not configured") /\
  fst (getOpenRouterClient (setEnvKey (Some "sk-or-v1-late") (snd (getOpenRouterClient w))))
  = Returned {| ident := 0; apiKey := "sk-or-v1-late" |}.
Proof.
  split; [reflexivity|].
  apply (getOpenRouterClient_recovers (startServer None None)
           (ErrorObj "OpenRouter API key not configured") "sk-or-v1-late");
    reflexivity.
Defined.

(** Whatever values the entries are built from, the context is the
    context of a list of results: the texts the template literal makes
    of the three members of each entry. *)
Lemma entryOf_some item index entry :
  entryOf item index = Returned entry ->
  exists r, entry = contextEntry r index.
Proof.
  unfold entryOf.
  destruct (get (Some item) "title") as [t|e]; [|discriminate].
  destruct (toString t) as [title|e]; [|discriminate].
  destruct (toString (field item "url")) as [url|e]; [|discriminate].
  destruct (toString (field item "snippet")) as [snippet|e]; [|discriminate].
  intros E; injection E as <-.
  exists {| Search.title := title; Search.url := url;
            Search.snippet := snippet; Search.domain := EmptyString |}.
  reflexivity.
Qed.

Lemma entriesFrom_some items :
  forall start entries,
    entriesFrom start items = Returned entries ->
    exists rs, entries = Js.mapFrom contextEntry start rs.
Proof.
  induction items as [|item rest IH]; intros start entries; cbn [entriesFrom].
  - intros E; injection E as <-. now exists [].
  - destruct (entryOf item start) as [entry|e] eqn:En; [|discriminate].
    destruct (entriesFrom (S start) rest) as [others|e] eqn:Es; [|discriminate].
    intros E; injection E as <-.
    destruct (entryOf_some item start entry En) as (r & ->).
    destruct (IH (S start) others Es) as (rs & ->).
    now exists (r :: rs).
Qed.

Lemma contextOf_some searchResults context :
  contextOf searchResults = Returned context ->
  exists rs, context = searchContext rs.
Proof.
  unfold contextOf. destruct searchResults as [| | | |items|]; try discriminate.
  destruct (entriesFrom 0 items) as [entries|e] eqn:Es; [|discriminate].
  intros E; injection E as <-.
  destruct (entriesFrom_some items 0 entries Es) as (rs & ->).
  now exists rs.
Qed.

(** What the synthesis does to the server: the client and the count of
    clients are left alone, and nothing or one synthesis request is
    sent. *)
Lemma synthesizeValues_effect backend self q rs w :
  let w' := snd (synthesizeValues backend self q rs w) in
  openRouterClient w' = openRouterClient w /\
  constructed w' = constructed w /\
  (fetchLog w' = fetchLog w \/
   exists question results,
     fetchLog w' =
       (fetchLog w ++ [chatRequest self (synthesisMessages question results) w])%list).
Proof.
  unfold synthesizeValues.
  destruct (contextOf rs) as [context|e] eqn:C; [|cbn; auto].
  destruct (contextOf_some rs context C) as (results & ->).
  destruct (toStringJ q) as [question|e]; [|cbn; auto].
  unfold chat.
  destruct (chatTry _ _); cbn; (split; [reflexivity | split; [reflexivity|]]);
    right; exists question, results; reflexivity.
Qed.

Lemma get_sound w : sound w -> sound (snd (getOpenRouterClient w)).
Proof.
  intros Inv. unfold getOpenRouterClient.
  destruct (openRouterClient w) as [c|] eqn:C; [exact Inv|].
  unfold sound in Inv. rewrite C in Inv. destruct Inv as [Z Empty].
  destruct (OPENROUTER_API_KEY w) as [key|]; cbn [snd].
  - destruct (Js.truthy key) eqn:T; cbn [negb snd construct].
    + unfold sound; cbn [openRouterClient constructed fetchLog ident apiKey].
      rewrite Z, Empty. repeat split; auto.
    + unfold sound. rewrite C. now split.
  - unfold sound. rewrite C. now split.
Qed.

Lemma post_sound backend request w :
  sound w -> sound (snd (POST backend request w)).
Proof.
  intros Inv.
  assert (P : sound (snd (postTry backend request w))).
  { destruct (post_steps backend request w) as [Same | (query & results & E)].
    - now rewrite Same.
    - rewrite E. pose proof (get_sound w Inv) as Inv1.
      destruct (getOpenRouterClient w) as [[client|e] w1] eqn:G;
        cbn [snd] in Inv1; [|exact Inv1].
      pose proof (get_returns_cached w w1 client G) as Cached.
      destruct (synthesizeValues_effect backend client query results w1)
        as (C & N & L).
      assert (Inv2 : sound (snd (synthesizeValues backend client query results w1))).
      { unfold sound in *. rewrite C, N. rewrite Cached in *.
        destruct Inv1 as (One & Id & T & Sent).
        destruct L as [L | (question & rs & L)]; rewrite L;
          (split; [exact One | split; [exact Id | split; [exact T|]]]);
          [exact Sent|].
        apply Forall_app. split; [exact Sent|].
        constructor; [|constructor].
        split; [reflexivity | split; [reflexivity | split; [reflexivity|]]].
        now exists question, rs. }
      destruct (synthesizeValues backend client query results w1) as [[a|e] w2];
        exact Inv2. }
  unfold POST. destruct (postTry backend request w) as [[r|e] w1];
    cbn [snd] in *; exact P.
Qed.

Lemma step_sound w w' : step w w' -> sound w -> sound w'.
Proof.
  intros S Inv. destruct S as [v w|w|backend request w].
  - exact Inv.
  - now apply get_sound.
  - now apply post_sound.
Qed.

Lemma steps_sound key appUrl w :
  steps (startServer key appUrl) w -> sound w.
Proof.
  intros S. remember (startServer key appUrl) as w0 eqn:Start.
  induction S as [w|w1 w2 w3 S12 IH S23].
  - subst w. unfold sound; cbn. now split.
  - eapply step_sound; [exact S23 | now apply IH].
Qed.

(** X10.  In the whole life of a server process at most one client is
    constructed: from the start, through any changes of the variable,
    lookups and handled requests, the count of constructed clients is 0
    while there is no cached client and 1 from then on, and the cached
    client holds a non-empty key. *)
Theorem at_most_one_client key appUrl w :
  steps (startServer key appUrl) w ->
  constructed w <= 1 /\
  (openRouterClient w = None <-> constructed w = 0) /\
  (forall c, openRouterClient w = Some c ->
             ident c = 0 /\ Js.truthy (apiKey c) = true).
Proof.
  intros S. pose proof (steps_sound key appUrl w S) as Inv.
  unfold sound in Inv.
  destruct (openRouterClient w) as [c|].
  - destruct Inv as (One & Id & T & _). rewrite One.
    split; [lia | split; [split; discriminate|]].
    intros c' E; injection E as <-. now split.
  - destruct Inv as [Z _]. rewrite Z.
    split; [lia | split; [now split|]].
    intros c' E; discriminate.
Qed.

Lemma at_most_one_client_witness :
  let unavailable : Backend := fun _ =>
    FetchResolves {| OpenRouter.status := 503;
                     OpenRouter.body := NotJson "Unexpected token" |} in
  let w0 := startServer (Some "sk-or-v1-test") None in
  let w1 := snd (POST unavailable (Parsed (Some "rust") (Some [])) w0) in
  let w2 := snd (POST unavailable (Parsed (Some "ocaml") (Some [])) (setEnvKey (Some "sk-or-v1-other") w1)) in
  constructed w2 = 1 /\
  openRouterClient w2 = Some {| ident := 0; apiKey := "sk-or-v1-test" |} /\
  constructed w2 <= 1.
Proof.
  intros unavailable w0 w1 w2.
  split; [reflexivity | split; [reflexivity|]].
  apply (at_most_one_client (Some "sk-or-v1-test") None w2).
  apply (steps_more w0 (setEnvKey (Some "sk-or-v1-other") w1) w2).
  - apply (steps_more w0 w1 _).
    + apply (steps_more w0 w0 w1); [apply steps_none | apply step_post].
    + apply step_env.
  - apply step_post.
Defined.

(** X11.  Every request a server process ever sends to the backend is a
    synthesis request of its one client: the completions URL, the
    model deepseek/deepseek-chat, the bearer key of the cached client,
    which is not empty, and exactly two messages, the fixed system
    prompt and a user prompt built from a question and a list of
    results.  So the key first read is the key of every request,
    whatever the variable holds later. *)
Theorem every_request_is_a_synthesis key appUrl w :
  steps (startServer key appUrl) w ->
  fetchLog w = [] \/
  exists c, openRouterClient w = Some c /\
            Js.truthy (apiKey c) = true /\
            Forall (synthesisRequestOf c) (fetchLog w).
Proof.
  intros S. pose proof (steps_sound key appUrl w S) as Inv.
  unfold sound in Inv.
  destruct (openRouterClient w) as [c|].
  - right. exists c. destruct Inv as (_ & _ & T & Sent). now repeat split.
  - left. apply Inv.
Qed.

Lemma every_request_is_a_synthesis_witness :
  let unavailable : Backend := fun _ =>
    FetchResolves {| OpenRouter.status := 503;
                     OpenRouter.body := NotJson "Unexpected token" |} in
  let w0 := startServer (Some "sk-or-v1-test") None in
  let w1 := snd (POST unavailable (Parsed (Some "rust") (Some [])) w0) in
  let w2 := snd (POST unavailable (Parsed (Some "ocaml") (Some [])) (setEnvKey None w1)) in
  map authorization (fetchLog w2) = ["Bearer sk-or-v1-test"; "Bearer sk-or-v1-test"] /\
  (fetchLog w2 = [] \/
   exists c, openRouterClient w2 = Some c /\
             Js.truthy (apiKey c) = true /\
             Forall (synthesisRequestOf c) (fetchLog w2)).
Proof.
  intros unavailable w0 w1 w2.
  split; [reflexivity|].
  apply (every_request_is_a_synthesis (Some "sk-or-v1-test") None w2).
  apply (steps_more w0 (setEnvKey None w1) w2).
  - apply (steps_more w0 w1 _).
    + apply (steps_more w0 w0 w1); [apply steps_none | apply step_post].
    + apply step_env.
  - apply step_post.
Defined.

Lemma chat_console backend self msgs w :
  let out := chat backend self msgs w in
  console (snd out) =
    (console w ++ if threw (fst out) then ["OpenRouter API error:"] else [])%list.
Proof.
  unfold chat. destruct (chatTry _ _); cbn; [now rewrite app_nil_r | reflexivity].
Qed.

(** The synthesis writes to the console only when it throws. *)
Lemma synthesizeValues_console backend self q rs w :
  let out := synthesizeValues backend self q rs w in
  (exists before, console (snd out) = (console w ++ before)%list) /\
  (threw (fst out) = false -> console (snd out) = console w).
Proof.
  unfold synthesizeValues.
  destruct (contextOf rs) as [context|e];
    [|cbn; split; [exists []; now rewrite app_nil_r | discriminate]].
  destruct (toStringJ q) as [question|e];
    [|cbn; split; [exists []; now rewrite app_nil_r | discriminate]].
  match goal with |- context [chat ?b ?s ?m ?w] =>
    pose proof (chat_console b s m w) as K;
    destruct (chat b s m w) as [[r|e] w1] end; cbn [fst snd threw] in *.
  - rewrite app_nil_r in K. split; [exists []; now rewrite app_nil_r | now intros _].
  - split; [now exists ["OpenRouter API error:"] | discriminate].
Qed.

Lemma get_keeps_console w :
  console (snd (getOpenRouterClient w)) = console w.
Proof.
  unfold getOpenRouterClient.
  destruct (openRouterClient w); [reflexivity|].
  destruct (OPENROUTER_API_KEY w) as [key|]; [|reflexivity].
  destruct (negb (Js.truthy key)); reflexivity.
Qed.

(** What the [try] block of the endpoint returns and writes. *)
Lemma postTry_console backend request w :
  let out := postTry backend request w in
  (exists before, console (snd out) = (console w ++ before)%list) /\
  match fst out with
  | Returned r =>
      console (snd out) = console w /\
      ((Route.status r = 200 /\ exists a, json r = AnswerJson a) \/
       (r = {| Route.status := 400;
               json := ErrorJson "Query and search results are required" |} /\
        snd out = w))
  | Threw _ => True
  end.
Proof.
  assert (Bad : forall w0 : Server,
            (exists before, console w0 = (console w0 ++ before)%list)).
  { intros w0. exists []. now rewrite app_nil_r. }
  unfold postTry.
  destruct request as [e|body]; [cbn; split; [apply Bad | exact I]|].
  assert (Invalid :
    let out := (@Returned NextResponse
                  {| Route.status := 400;
                     json := ErrorJson "Query and search results are required" |}, w) in
    (exists before, console (snd out) = (console w ++ before)%list) /\
    match fst out with
    | Returned r =>
        console (snd out) = console w /\
        ((Route.status r = 200 /\ exists a, json r = AnswerJson a) \/
         (r = {| Route.status := 400;
                 json := ErrorJson "Query and search results are required" |} /\
          snd out = w))
    | Threw _ => True
    end).
  { cbn. split; [apply Bad|]. split; [reflexivity | right; now split]. }
  destruct body; try exact Invalid; [cbn; split; [apply Bad | exact I]|].
  destruct (field _ "query") as [query|]; [|exact Invalid].
  destruct (field _ "searchResults") as [results|]; [|exact Invalid].
  destruct (negb _ || negb _); [exact Invalid|].
  pose proof (get_keeps_console w) as G.
  destruct (getOpenRouterClient w) as [[client|e] w1]; cbn [snd] in G;
    [|cbn; split; [rewrite G; apply Bad | exact I]].
  destruct (synthesizeValues_console backend client query results w1) as [Pre Ok].
  destruct (synthesizeValues backend client query results w1) as [[a|e] w2];
    cbn [fst snd threw] in *; rewrite G in *.
  - split; [exact Pre|]. split; [now apply Ok|].
    left. split; [reflexivity | now exists a].
  - split; [exact Pre | exact I].
Qed.

(** The three answers of the endpoint, and when it answers 400. *)
Lemma post_cases backend request w :
  let out := POST backend request w in
  ((Route.status (fst out) = 200 /\ exists a, json (fst out) = AnswerJson a) \/
   (Route.status (fst out) = 400 /\
    json (fst out) = ErrorJson "Query and search results are required" /\
    snd out = w) \/
   (Route.status (fst out) = 500 /\ exists m, json (fst out) = ErrorJson m)) /\
  (Route.status (fst out) = 400 <->
   exists body,
     request = ParsedJson body /\ body <> JNull /\
     (truthy (field body "query") = false \/
      truthy (field body "searchResults") = false)).
Proof.
  cbv zeta. split.
  - destruct (postTry_console backend request w) as [_ R]. cbv zeta in R.
    unfold POST.
    destruct (postTry backend request w) as [[r|e] w1]; cbn [fst snd] in *.
    + destruct R as (_ & [Ok | (-> & Same)]); [now left|].
      right; left. now repeat split.
    + right; right. split; [apply postCatch_500 | apply postCatch_error].
  - unfold POST, postTry.
    destruct request as [e|body].
    { cbn [fst]. rewrite postCatch_500. split; [discriminate|].
      intros (body & E & _). discriminate. }
    assert (Iff400 : forall falsy : bool,
              (falsy = true <->
               (truthy (field body "query") = false \/
                truthy (field body "searchResults") = false)) ->
              body <> JNull ->
              forall st, (st = 400 <-> falsy = true) ->
              (st = 400 <->
               exists body0,
                 ParsedJson body = ParsedJson body0 /\ body0 <> JNull /\
                 (truthy (field body0 "query") = false \/
                  truthy (field body0 "searchResults") = false))).
    { intros falsy F NotNull st S. rewrite S, F. split.
      - intros B. now exists body.
      - intros (body0 & E & _ & B). injection E as <-. exact B. }
    destruct body as [| | | | |fields];
      try (cbn [fst Route.status field];
           apply (Iff400 true);
           [split; [intros _; now left | reflexivity]
           | discriminate | split; reflexivity]).
    { cbn [fst]. rewrite postCatch_500. split; [discriminate|].
      intros (body & E & N & _). injection E as <-. now elim N. }
    cbn [field] in *.
    destruct (lookup "query" fields) as [query|];
      [|cbn [fst Route.status]; apply (Iff400 true);
        [split; [intros _; now left | reflexivity]
        | discriminate | split; reflexivity]].
    destruct (lookup "searchResults" fields) as [results|];
      [|cbn [fst Route.status]; apply (Iff400 true);
        [split; [intros _; now right | reflexivity]
        | discriminate | split; reflexivity]].
    destruct (truthy (Some query)) eqn:Tq;
      [|cbn [negb orb fst Route.status]; apply (Iff400 true);
        [split; [intros _; now left | reflexivity]
        | discriminate | split; reflexivity]].
    destruct (truthy (Some results)) eqn:Tr;
      [|cbn [negb orb fst Route.status]; apply (Iff400 true);
        [split; [intros _; now right | reflexivity]
        | discriminate | split; reflexivity]].
    cbn [negb orb].
    apply (Iff400 false);
      [split; [discriminate | intros [B|B]; discriminate] | discriminate|].
    destruct (getOpenRouterClient w) as [[client|e] w1].
    + destruct (synthesizeValues backend client query results w1) as [[a|e] w2];
        cbn [fst]; [|rewrite postCatch_500]; split; discriminate.
    + cbn [fst]. rewrite postCatch_500. split; discriminate.
Qed.

(** X12.  The endpoint gives one of three answers: status 200 with an
    answer, status 400 with the validation error and the server left
    as it was, or status 500 with an error text.  It answers 400
    exactly when the body was read, is not null, and its [query] or
    its [searchResults] is missing or falsy (null, false, 0, the empty
    string); an empty list of results is not falsy, and a null body is
    answered 500. *)
Theorem post_answers backend request w :
  let out := POST backend request w in
  ((Route.status (fst out) = 200 /\ exists a, json (fst out) = AnswerJson a) \/
   (Route.status (fst out) = 400 /\
    json (fst out) = ErrorJson "Query and search results are required" /\
    snd out = w) \/
   (Route.status (fst out) = 500 /\ exists m, json (fst out) = ErrorJson m)) /\
  (Route.status (fst out) = 400 <->
   exists body,
     request = ParsedJson body /\ body <> JNull /\
     (truthy (field body "query") = false \/
      truthy (field body "searchResults") = false)) /\
  truthy (Some (JArray [])) = true /\
  fst (POST backend (ParsedJson JNull) w) =
    {| Route.status := 500;
       json := ErrorJson
         "Cannot destructure property 'query' of '(intermediate value)' as it is null." |}.
Proof.
  cbv zeta.
  destruct (post_cases backend request w) as [Cases Invalid].
  cbv zeta in Cases, Invalid.
  split; [exact Cases | split; [exact Invalid | split; reflexivity]].
Qed.

(** X13.  The endpoint writes to the error console exactly when it
    answers 500: then at least the line of the route is added; with
    200 or 400 the console is left as it was. *)
Theorem post_logs_iff_500 backend request w :
  let out := POST backend request w in
  (Route.status (fst out) = 500 ->
   exists before,
     console (snd out) = (console w ++ before ++ ["Synthesis API error:"])%list) /\
  (Route.status (fst out) <> 500 -> console (snd out) = console w).
Proof.
  cbv zeta.
  destruct (postTry_console backend request w) as [Pre R]. cbv zeta in R, Pre.
  unfold POST.
  destruct (postTry backend request w) as [[r|e] w1]; cbn [fst snd] in *.
  - destruct R as (Same & [[S _] | (-> & _)]).
    + rewrite S. split; [discriminate | now intros _].
    + split; [discriminate | now intros _].
  - split.
    + intros _. destruct Pre as [before Pre]. exists before.
      cbn [consoleError console]. rewrite Pre. now rewrite <- app_assoc.
    + intros N; now rewrite postCatch_500 in N.
Qed.

Lemma post_logs_iff_500_witness :
  let w := startServer None None in
  let out := POST (fun _ => FetchRejects OtherValue)
                  (Parsed (Some "rust") (Some [])) w in
  Route.status (fst out) = 500 /\
  exists before,
    console (snd out) = (console w ++ before ++ ["Synthesis API error:"])%list.
Proof.
  intros w out. split; [reflexivity|].
  apply (post_logs_iff_500 (fun _ => FetchRejects OtherValue)
           (Parsed (Some "rust") (Some [])) w).
  reflexivity.
Defined.

(** X14.  The text of a backend failure can pass for a missing key:
    when the backend answers with a status outside 200..299 and an
    error message that contains 'API key not configured', the endpoint
    answers exactly as it does when the key is missing. *)
Theorem backend_message_passes_for_missing_key backend q rs w client w1 st body m :
  Js.truthy q = true ->
  getOpenRouterClient w = (Returned client, w1) ->
  backend (chatRequest client (synthesisMessages q rs) w1)
    = FetchResolves {| OpenRouter.status := st; OpenRouter.body := body |} ->
  ok st = false ->
  errorMessage body = Returned (Some (JString m)) ->
  Js.includes m "API key not configured" = true ->
  fst (POST backend (Parsed (Some q) (Some rs)) w) =
    {| Route.status := 500;
       json := ErrorJson "OpenRouter API key not configured" |}.
Proof.
  intros T G B NotOk M Inc.
  rewrite (post_valid _ _ _ _ T), G.
  pose proof (synthesize_rejected backend client q rs w1 st body B NotOk) as R.
  assert (Tm : Js.truthy m = true) by (destruct m; [discriminate | reflexivity]).
  unfold errorText in R. rewrite M in R. cbn [truthy toString toStringJ] in R.
  rewrite Tm in R.
  assert (I : Js.includes ("OpenRouter API error: " ++ Js.numberToString st ++ " - " ++ m)
                          "API key not configured" = true).
  { apply (includes_append_l "OpenRouter API error: "), includes_append_l.
    now apply (includes_append_l " - "). }
  remember ("OpenRouter API error: " ++ Js.numberToString st ++ " - " ++ m)
    as message eqn:Message.
  clear Message.
  destruct (synthesizeSearchResults backend client q rs w1) as [[a|e] w2];
    cbn [fst] in R; [discriminate|].
  injection R as ->. cbn [fst postCatch]. now rewrite I.
Qed.

Lemma backend_message_passes_for_missing_key_witness :
  let quota : Backend := fun _ =>
    FetchResolves {| OpenRouter.status := 429;
                     OpenRouter.body :=
                       JsonData (Some "Upstream API key not configured for this model")
                                None None |} in
  fst (POST quota (Parsed (Some "rust") (Some []))
            (startServer (Some "sk-or-v1-test") None)) =
    {| Route.status := 500;
       json := ErrorJson "OpenRouter API key not configured" |}.
Proof.
  intros quota.
  apply (backend_message_passes_for_missing_key quota "rust" []
           (startServer (Some "sk-or-v1-test") None)
           {| ident := 0; apiKey := "sk-or-v1-test" |}
           (snd (getOpenRouterClient (startServer (Some "sk-or-v1-test") None)))
           429
           (JsonData (Some "Upstream API key not configured for this model") None None)
           "Upstream API key not configured for this model");
    reflexivity.
Defined.

(** X15.  What [chat] does with each behaviour of the backend.  One
    request is sent in every case, and a line is written to the error
    console exactly when [chat] throws.  A rejected [fetch] is
    rethrown as it is.  For a reply with a status in 200..299: a body
    that is not JSON throws the parse error; a null body throws the
    TypeError of reading [choices] of null; a body whose [choices] is
    missing, falsy or an empty array is the error 'No response
    generated from the model'; when [choices] is an array that is not
    empty only its first element counts: a null first choice, or one
    whose [message] is missing or null, throws the TypeError of the
    read that fails, and otherwise the content returned is the
    [content] of that message, whatever value it is, undefined when
    the message has none. *)
Theorem chat_outcomes backend self msgs w :
  let out := chat backend self msgs w in
  let req := chatRequest self msgs w in
  fetchLog (snd out) = (fetchLog w ++ [req])%list /\
  length (console (snd out)) =
    length (console w) + (if threw (fst out) then 1 else 0) /\
  (forall e, backend req = FetchRejects e -> fst out = Threw e) /\
  (forall st body,
     backend req = FetchResolves {| OpenRouter.status := st;
                                    OpenRouter.body := body |} ->
     ok st = true ->
     match body with
     | NotJson parseError => fst out = Threw (ErrorObj parseError)
     | IsJson JNull =>
         fst out =
         Threw (ErrorObj "Cannot read properties of null (reading 'choices')")
     | IsJson data =>
         (truthy (field data "choices") = false \/
          field data "choices" = Some (JArray []) ->
          fst out = Threw (ErrorObj "No response generated from the model")) /\
         (forall first rest,
            field data "choices" = Some (JArray (first :: rest)) ->
            fst out =
            match first with
            | JNull =>
                Threw (ErrorObj "Cannot read properties of null (reading 'message')")
            | _ =>
                match field first "message" with
                | None =>
                    Threw (ErrorObj
                      "Cannot read properties of undefined (reading 'content')")
                | Some JNull =>
                    Threw (ErrorObj
                      "Cannot read properties of null (reading 'content')")
                | Some message =>
                    Returned {| responseContent := field message "content";
                                usage := field data "usage" |}
                end
            end)
     end).
Proof.
  intros out req. split; [|split; [|split]].
  - unfold out, chat. fold req. destruct (chatTry backend req); reflexivity.
  - unfold out. rewrite chat_console, length_app.
    destruct (threw _); reflexivity.
  - intros e B. unfold out, chat, chatTry. fold req. rewrite B. reflexivity.
  - intros st body B Ok.
    assert (C : fst out = completion body).
    { unfold out, chat, chatTry. fold req. rewrite B.
      cbn [OpenRouter.status OpenRouter.body]. rewrite Ok. cbn [negb].
      destruct (completion body); reflexivity. }
    rewrite C. clear C.
    destruct body as [parseError|data]; [reflexivity|].
    assert (General :
      (truthy (field data "choices") = false \/
       field data "choices" = Some (JArray []) ->
       data <> JNull ->
       completion (IsJson data) =
       Threw (ErrorObj "No response generated from the model")) /\
      (forall first rest,
         field data "choices" = Some (JArray (first :: rest)) ->
         completion (IsJson data) =
         match first with
         | JNull =>
             Threw (ErrorObj "Cannot read properties of null (reading 'message')")
         | _ =>
             match field first "message" with
             | None =>
                 Threw (ErrorObj
                   "Cannot read properties of undefined (reading 'content')")
             | Some JNull =>
                 Threw (ErrorObj
                   "Cannot read properties of null (reading 'content')")
             | Some message =>
                 Returned {| responseContent := field message "content";
                             usage := field data "usage" |}
             end
         end)).
    { split.
      - intros Empty NotNull. unfold completion, get.
        destruct data as [| | | | |fields]; try reflexivity; [now elim NotNull|].
        cbn [field] in *.
        destruct (lookup "choices" fields) as [choices|]; [|reflexivity].
        destruct Empty as [F | E].
        + now rewrite F.
        + injection E as ->. reflexivity.
      - intros first rest Choices. unfold completion, get.
        destruct data as [| | | | |fields]; try discriminate.
        cbn [field] in *. rewrite Choices. cbn [truthy negb orb lengthIsZero].
        unfold firstMessage, get.
        destruct first as [| | | | |ffields]; try reflexivity.
        cbn [field].
        destruct (lookup "message" ffields) as [message|]; [|reflexivity].
        destruct message; reflexivity. }
    destruct General as [Empty First].
    destruct data; try (split; [intros E; apply Empty; [exact E | discriminate]
                               | exact First]).
    reflexivity.
Qed.

Lemma chat_outcomes_witness :
  let partial : Backend := fun _ =>
    FetchResolves {| OpenRouter.status := 200;
                     OpenRouter.body :=
                       IsJson (JObject [("choices",
                                         JArray [JObject [("finish_reason",
                                                           JString "length")]])]) |} in
  fst (chat partial {| ident := 0; apiKey := "sk-or-v1-test" |} []
            (startServer (Some "sk-or-v1-test") None))
  = Threw (ErrorObj "Cannot read properties of undefined (reading 'content')").
Proof.
  intros partial.
  destruct (chat_outcomes partial {| ident := 0; apiKey := "sk-or-v1-test" |} []
              (startServer (Some "sk-or-v1-test") None)) as (_ & _ & _ & Ok).
  destruct (Ok 200 (IsJson (JObject [("choices",
                                      JArray [JObject [("finish_reason",
                                                        JString "length")]])]))
              eq_refl eq_refl) as [_ First].
  apply (First (JObject [("finish_reason", JString "length")]) []).
  reflexivity.
Defined.

End MoreServerFacts.


(* ================================================================== *)
(** ** More on the search handler and on what is rendered *)

Section MoreHandlerFacts.
Import Exn SearchInterface Render.

Lemma truthy_trim q : Js.truthy (Js.trim q) = true -> Js.truthy q = true.
Proof. destruct q; [discriminate | reflexivity]. Qed.

(** The only error the [searchWeb] of the repository throws. *)
Lemma searchWeb_throws_uri q e :
  Search.searchWeb q = Threw e -> e = ErrorObj "URI malformed".
Proof.
  unfold Search.searchWeb, Search.searchWebIn.
  rewrite (searchWeb_cases Js.toLowerCase q). cbv zeta.
  destruct (Js.includes _ "climate change");
    destruct (Js.includes _ "artificial intelligence"); try discriminate.
  destruct (Js.encodeURIComponent q); [discriminate|].
  now intros E; injection E as <-.
Qed.

(** X16.  After a run on a query that is not blank: [loading] is off
    and the query is what it was; either a response is set and no
    error, and then the response has the citations built from the very
    results it shows, and distinct keys for the list of sources; or an
    error text is set and no response. *)
Theorem handleSearch_final_state (searchWeb : Retrieval) link backend b srv :
  Js.truthy (Js.trim (query (ui b))) = true ->
  let after := ui (fst (handleSearch searchWeb link backend b srv)) in
  loading after = false /\
  query after = query (ui b) /\
  ((exists r,
      response after = Some r /\ error after = None /\
      citations r = createCitations (searchResults r) /\
      NoDup (sourceKeys r)) \/
   (response after = None /\ exists m, error after = Some m)).
Proof.
  intros T. unfold handleSearch. rewrite T. cbn [negb].
  unfold searchTry.
  destruct (searchWeb (query (ui b))) as [found|e];
    [|cbn; repeat split; right; split; [reflexivity | eexists; reflexivity]].
  destruct link as [|e];
    [|cbn; repeat split; right; split; [reflexivity | eexists; reflexivity]].
  destruct (Route.POST _ _ _) as [apiResponse srv1].
  destruct (OpenRouter.ok (Route.status apiResponse)); cbn [negb].
  - cbn. repeat split.
    left. eexists. repeat split.
    unfold sourceKeys; cbn [citations].
    unfold createCitations, Js.mapi. rewrite (mapFrom_numbers 0).
    apply seq_NoDup.
  - cbn. repeat split. right. split; [reflexivity | eexists; reflexivity].
Qed.

Lemma handleSearch_final_state_witness :
  let answering : OpenRouter.Backend := fun _ =>
    OpenRouter.FetchResolves
      {| OpenRouter.status := 200;
         OpenRouter.body := OpenRouter.JsonData None (Some ["An answer."]) None |} in
  let after := ui (fst (handleSearch mockRetrieval Reaches answering
                          (setQuery "climate change" initialBrowser)
                          (OpenRouter.startServer (Some "sk-or-v1-test") None))) in
  loading after = false /\ error after = None /\
  option_map answer (response after) = Some (Some (Json.JString "An answer.")).
Proof.
  intros answering after.
  destruct (handleSearch_final_state mockRetrieval Reaches answering
              (setQuery "climate change" initialBrowser)
              (OpenRouter.startServer (Some "sk-or-v1-test") None) eq_refl)
    as (L & _ & _).
  fold after in L. split; [exact L|]. split; reflexivity.
Defined.

(** X17.  With the [searchWeb] of the repository and a reachable
    endpoint, a run on a query that is not blank goes one of two ways.
    When the search throws, which it does only with [URIError], one
    call was made, the error shown is 'URI malformed', no response is
    set and the server is untouched.  When the search returns, exactly
    two calls are made, the search and then the synthesis of the
    results found, and the only error the run can end with is
    'API error: 500': the text the endpoint put in its answer is not
    shown. *)
Theorem handleSearch_mock_run backend b srv :
  Js.truthy (Js.trim (query (ui b))) = true ->
  let q := query (ui b) in
  let out := handleSearch mockRetrieval Reaches backend b srv in
  match Search.searchWeb q with
  | Threw e =>
      e = ErrorObj "URI malformed" /\
      calls (fst out) = (calls b ++ [CallSearchWeb q])%list /\
      error (ui (fst out)) = Some "URI malformed" /\
      response (ui (fst out)) = None /\
      snd out = srv
  | Returned found =>
      calls (fst out) =
        (calls b ++ [CallSearchWeb q;
                     CallSynthesize q (Search.results found)])%list /\
      (error (ui (fst out)) = None \/ error (ui (fst out)) = Some "API error: 500")
  end.
Proof.
  intros T q out. unfold out, handleSearch. rewrite T. cbn [negb].
  unfold searchTry, mockRetrieval. fold q.
  destruct (Search.searchWeb q) as [found|e] eqn:S.
  - rewrite (post_valid backend q (Search.results found) srv (truthy_trim q T)).
    destruct (OpenRouter.getOpenRouterClient srv) as [[client|e] w1].
    + destruct (OpenRouter.synthesizeSearchResults _ _ _ _ _) as [[a|e] w2].
      * cbn. split; [reflexivity | now left].
      * rewrite postCatch_500. cbn. split; [reflexivity | now right].
    + rewrite postCatch_500. cbn. split; [reflexivity | now right].
  - rewrite (searchWeb_throws_uri q e S). cbn. repeat split.
Qed.

Lemma handleSearch_mock_run_witness :
  let b := setQuery Scenario.loneSurrogate initialBrowser in
  let out := handleSearch mockRetrieval Reaches
               (fun _ => OpenRouter.FetchRejects (ErrorObj "fetch failed")) b
               (OpenRouter.startServer None None) in
  calls (fst out) = [CallSearchWeb Scenario.loneSurrogate] /\
  error (ui (fst out)) = Some "URI malformed".
Proof.
  intros b out.
  pose proof (handleSearch_mock_run
                (fun _ => OpenRouter.FetchRejects (ErrorObj "fetch failed")) b
                (OpenRouter.startServer None None) eq_refl) as Run.
  cbv zeta in Run.
  change (Search.searchWeb (query (ui b)))
    with (@Threw Search.SearchResponse (ErrorObj "URI malformed")) in Run.
  destruct Run as (_ & Calls & Err & _).
  split; [exact Calls | exact Err].
Defined.

(** A string of one-byte white space trims to the empty string. *)
Lemma trim_whitespace q :
  Chars.allChars Js.isWhitespace q = true -> Js.trim q = EmptyString.
Proof.
  intros W. unfold Js.trim, Js.trimStart.
  assert (Start : Js.trimStartFrom 0 q = EmptyString).
  { induction q as [|a r IH]; [reflexivity|].
    cbn [Chars.allChars] in W. apply andb_true_iff in W. destruct W as [Wa Wr].
    cbn [Js.trimStartFrom Js.whitespaceAt]. rewrite Wa. now apply IH. }
  now rewrite Start.
Qed.

(** X18.  A query made of spaces, tabs and line breaks only is ignored
    like the empty one: [trim] leaves nothing of it, so the handler
    returns at once, nothing is called and nothing changes. *)
Theorem blank_query_ignored (searchWeb : Retrieval) link backend b srv (q : string) :
  Chars.allChars Js.isWhitespace q = true ->
  Js.trim q = EmptyString /\
  handleSearch searchWeb link backend (setQuery q b) srv = (setQuery q b, srv).
Proof.
  intros Blank. pose proof (trim_whitespace q Blank) as Trim.
  split; [exact Trim|].
  unfold handleSearch, setQuery. cbn [query ui].
  now rewrite Trim.
Qed.

Lemma blank_query_ignored_witness :
  let q := String (ascii_of_nat 32) (String (ascii_of_nat 9)
             (String (ascii_of_nat 10) (String (ascii_of_nat 32) EmptyString))) in
  handleSearch Scenario.searchDown Reaches
    (fun _ => OpenRouter.FetchRejects OtherValue)
    (setQuery q initialBrowser) (OpenRouter.startServer None None)
  = (setQuery q initialBrowser, OpenRouter.startServer None None).
Proof.
  intros q.
  apply (blank_query_ignored Scenario.searchDown Reaches
           (fun _ => OpenRouter.FetchRejects OtherValue)
           initialBrowser (OpenRouter.startServer None None) q).
  reflexivity.
Defined.

(** X19.  The submit button and the handler agree.  Whenever the
    handler would ignore the query the button is disabled; when the
    button is enabled, a run calls the search with the query as typed,
    and leaves the button enabled again. *)
Theorem submit_button_agrees (searchWeb : Retrieval) link backend b srv :
  (Js.truthy (Js.trim (query (ui b))) = false -> submitDisabled (ui b) = true) /\
  (submitDisabled (ui b) = false ->
   let out := handleSearch searchWeb link backend b srv in
   (exists rest,
      calls (fst out) = (calls b ++ CallSearchWeb (query (ui b)) :: rest)%list) /\
   submitDisabled (ui (fst out)) = false).
Proof.
  unfold submitDisabled. split.
  - intros ->. now rewrite orb_true_r.
  - intros Enabled. apply orb_false_elim in Enabled.
    destruct Enabled as [_ T]. apply negb_false_iff in T.
    unfold handleSearch. cbv zeta. rewrite T. cbn [negb]. unfold searchTry.
    destruct (searchWeb (query (ui b))) as [found|e].
    + destruct link as [|e].
      * destruct (Route.POST _ _ _) as [apiResponse srv1].
        destruct (negb _); cbn [fst snd ui calls query loading orb];
          rewrite T; split; try reflexivity; eexists; reflexivity.
      * cbn [fst snd ui calls query loading orb]. rewrite T.
        split; [eexists|]; reflexivity.
    + cbn [fst snd ui calls query loading orb]. rewrite T.
      split; [eexists|]; reflexivity.
Qed.

Lemma submit_button_agrees_witness :
  let b := setQuery "climate change" initialBrowser in
  submitDisabled (ui b) = false /\
  submitDisabled
    (ui (fst (handleSearch Scenario.searchDown Reaches
                (fun _ => OpenRouter.FetchRejects OtherValue) b
                (OpenRouter.startServer None None)))) = false.
Proof.
  intros b. split; [reflexivity|].
  apply (submit_button_agrees Scenario.searchDown Reaches
           (fun _ => OpenRouter.FetchRejects OtherValue) b
           (OpenRouter.startServer None None)).
  reflexivity.
Defined.



End MoreHandlerFacts.

(* ================================================================== *)
(** ** A run that succeeds *)

Section SuccessFacts.
Import Exn Json SearchInterface.

(** X22.  From the question to the screen.  For a query that is not
    blank and on which the [searchWeb] of the repository returns, with
    a reachable endpoint, a client available on the server and a
    backend that answers the synthesis request with a status in
    200..299 and a body whose [choices] is an array starting with a
    choice whose [message] is not null: the run ends with no error and
    a response whose answer is the [content] of that message, whatever
    value it is, whose results are those of the search and whose
    citations number them in order; the server has sent that one
    request and nothing else has changed on it beyond the client being
    cached. *)
Theorem handleSearch_success backend b srv client srv1 st data first rest message found :
  let q := query (ui b) in
  let request :=
    OpenRouter.chatRequest client
      (OpenRouter.synthesisMessages q (Search.results found)) srv1 in
  Js.truthy (Js.trim q) = true ->
  Search.searchWeb q = Returned found ->
  OpenRouter.getOpenRouterClient srv = (Returned client, srv1) ->
  backend request =
    OpenRouter.FetchResolves
      {| OpenRouter.status := st; OpenRouter.body := OpenRouter.IsJson data |} ->
  OpenRouter.ok st = true ->
  field data "choices" = Some (JArray (first :: rest)) ->
  field first "message" = Some message ->
  message <> JNull ->
  handleSearch mockRetrieval Reaches backend b srv =
    ({| ui := {| query := q;
                 loading := false;
                 response := Some {| answer := field message "content";
                                     citations := createCitations (Search.results found);
                                     searchResults := Search.results found |};
                 error := None |};
        calls := (calls b ++ [CallSearchWeb q;
                              CallSynthesize q (Search.results found)])%list |},
     OpenRouter.logFetch request srv1).
Proof.
  intros q request T S G B Ok Choices Message NotNull.
  unfold handleSearch. fold q. rewrite T. cbn [negb].
  unfold searchTry, mockRetrieval. rewrite S.
  rewrite (post_valid backend q (Search.results found) srv (truthy_trim q T)), G.
  unfold OpenRouter.synthesizeSearchResults, OpenRouter.chat, OpenRouter.chatTry.
  fold request. rewrite B.
  cbn [OpenRouter.status OpenRouter.body]. rewrite Ok. cbn [negb].
  unfold OpenRouter.completion, get.
  destruct data as [| | | | |fields]; try discriminate.
  cbn [field] in Choices. cbn [field]. rewrite Choices.
  cbn [truthy negb orb OpenRouter.lengthIsZero].
  unfold OpenRouter.firstMessage, get.
  destruct first as [| | | | |ffields]; try discriminate.
  cbn [field] in Message. cbn [field]. rewrite Message.
  destruct message; try (now elim NotNull); reflexivity.
Qed.

Lemma handleSearch_success_witness :
  let answering : OpenRouter.Backend := fun _ =>
    OpenRouter.FetchResolves
      {| OpenRouter.status := 200;
         OpenRouter.body :=
           OpenRouter.JsonData None (Some ["AI is a field [1][2]."; "unused"]) None |} in
  let out := handleSearch mockRetrieval Reaches answering
               (setQuery "What is artificial intelligence?" initialBrowser)
               (OpenRouter.startServer (Some "sk-or-v1-test") None) in
  option_map answer (response (ui (fst out)))
    = Some (Some (JString "AI is a field [1][2].")) /\
  length (OpenRouter.fetchLog (snd out)) = 1.
Proof.
  intros answering out.
  assert (E := handleSearch_success answering
                 (setQuery "What is artificial intelligence?" initialBrowser)
                 (OpenRouter.startServer (Some "sk-or-v1-test") None)
                 {| OpenRouter.ident := 0; OpenRouter.apiKey := "sk-or-v1-test" |}
                 (snd (OpenRouter.getOpenRouterClient
                         (OpenRouter.startServer (Some "sk-or-v1-test") None)))
                 200
                 (JObject [("choices",
                            JArray (map OpenRouter.choiceJson
                                      ["AI is a field [1][2]."; "unused"]))])
                 (OpenRouter.choiceJson "AI is a field [1][2].")
                 [OpenRouter.choiceJson "unused"]
                 (JObject [("content", JString "AI is a field [1][2].")])
                 {| Search.results := [Scenario.ibmResult; Scenario.stanfordResult];
                    Search.totalResults := 2 |}
                 eq_refl eq_refl eq_refl eq_refl eq_refl eq_refl eq_refl).
  fold out in E.
  rewrite (E ltac:(discriminate)). split; reflexivity.
Defined.

End SuccessFacts.

